(** * frank_energie_slim: the GraphQL client and the polling coordinator

    A shallow embedding of [custom_components/frank_energie_slim/api.py]
    (class [FrankEnergie]) and of
    [custom_components/frank_energie_slim/sensor.py]
    (class [FrankBatteryCoordinator] and the two sensor entities).

    Python values are a small universe [pyval]; the instance attributes the
    methods mutate ([self.auth], [self.summary], [self.sessions_node]), the
    requests put on the wire and the log records are explicit state, threaded
    by a state-and-exception monad. *)

From Stdlib Require Import ZArith List String Ascii Bool Lia PrimFloat.
Import ListNotations.
Local Open Scope string_scope.
Local Open Scope Z_scope.

Set Implicit Arguments.
Set Warnings "-register-all".

(** ** Python values *)

(** What [json.loads] can return, which is also what the attributes of the
    client and of the coordinator hold: [None], [bool], [int], [float],
    [str], [list] and [dict] with string keys. A [dict] keeps its items in
    insertion order; keys are unique in every dict the program builds. *)
Inductive pyval : Type :=
| PyNone
| PyBool (b : bool)
| PyInt (n : Z)
| PyFloat (f : float)
| PyStr (s : string)
| PyList (l : list pyval)
| PyDict (kv : list (string * pyval)).

(** [bool(v)]. *)
Definition truthy (v : pyval) : bool :=
  match v with
  | PyNone => false
  | PyBool b => b
  | PyInt n => negb (n =? 0)
  | PyFloat f => negb (PrimFloat.eqb f 0%float)
  | PyStr s => negb (String.eqb s EmptyString)
  | PyList l => match l with [] => false | _ => true end
  | PyDict kv => match kv with [] => false | _ => true end
  end.

(** [a or b]: the first operand when it is truthy, else the second. *)
Definition py_or (a b : pyval) : pyval := if truthy a then a else b.

(** [v == s] for a string literal [s]. *)
Definition eq_str (v : pyval) (s : string) : bool :=
  match v with
  | PyStr t => String.eqb t s
  | _ => false
  end.

Definition is_dict (v : pyval) : bool :=
  match v with PyDict _ => true | _ => false end.

Definition is_none (v : pyval) : bool :=
  match v with PyNone => true | _ => false end.

(** Item lookup in a dict. *)
Fixpoint dict_get (kv : list (string * pyval)) (k : string) : option pyval :=
  match kv with
  | [] => None
  | (k', v) :: rest => if String.eqb k' k then Some v else dict_get rest k
  end.

Definition dict_has (kv : list (string * pyval)) (k : string) : bool :=
  match dict_get kv k with Some _ => true | None => false end.

(** ** Exceptions and results *)

Inductive exn : Type :=
| Exception (arg : pyval)        (* raise Exception(arg) *)
| HTTPError (status : Z)         (* requests: raise_for_status *)
| RequestFailed                  (* requests: no response (connection, timeout) *)
| JSONDecodeError                (* requests: resp.json() on a body that is not JSON *)
| AttributeError
| TypeError
| KeyError
| OverflowError.

Inductive result (A : Type) : Type :=
| Ok (a : A)
| Raise (e : exn).
Arguments Ok {A} a.
Arguments Raise {A} e.

Definition rbind {A B} (r : result A) (k : A -> result B) : result B :=
  match r with
  | Ok a => k a
  | Raise e => Raise e
  end.

(** [v.get(k, d)]: only a dict has the method. *)
Definition py_get_default (v : pyval) (k : string) (d : pyval) : result pyval :=
  match v with
  | PyDict kv => Ok (match dict_get kv k with Some x => x | None => d end)
  | _ => Raise AttributeError
  end.

(** [v.get(k)]. *)
Definition py_get (v : pyval) (k : string) : result pyval :=
  py_get_default v k PyNone.

(** [s in v] for a string literal [s]: a key of a dict, an element of a list,
    a substring of a str; the other values are not containers. *)
Definition py_contains (v : pyval) (s : string) : result bool :=
  match v with
  | PyDict kv => Ok (dict_has kv s)
  | PyList l => Ok (existsb (fun x => eq_str x s) l)
  | PyStr t => Ok (match String.index 0 s t with Some _ => true | None => false end)
  | _ => Raise TypeError
  end.

(** [v[s]] for a string literal [s]. *)
Definition py_item (v : pyval) (s : string) : result pyval :=
  match v with
  | PyDict kv => match dict_get kv s with Some x => Ok x | None => Raise KeyError end
  | _ => Raise TypeError
  end.

(** The last character of a str, as a str. *)
Fixpoint last_char (s : string) : string :=
  match s with
  | EmptyString => EmptyString
  | String c EmptyString => String c EmptyString
  | String _ rest => last_char rest
  end.

(** [v[0]] for a truthy [v]. *)
Definition py_first (v : pyval) : result pyval :=
  match v with
  | PyList (x :: _) => Ok x
  | PyStr (String c _) => Ok (PyStr (String c EmptyString))
  | PyDict _ => Raise KeyError
  | _ => Raise TypeError
  end.

(** [v[-1]] for a truthy [v]. *)
Definition py_last (v : pyval) : result pyval :=
  match v with
  | PyList (x :: l) => Ok (last l x)
  | PyStr (String c s) => Ok (PyStr (last_char (String c s)))
  | PyDict _ => Raise KeyError
  | _ => Raise TypeError
  end.

(** ** Dates *)

(** A [datetime]; the time of day plays no part in what follows. *)
Record datetime : Type := mkDate {
  year : Z;
  month : Z;
  day : Z;
  seconds_of_day : Z
}.

Definition is_leap (y : Z) : bool :=
  (y mod 4 =? 0) && (negb (y mod 100 =? 0) || (y mod 400 =? 0)).

Definition days_in_month (y m : Z) : Z :=
  if (m =? 2) then (if is_leap y then 29 else 28)
  else if (m =? 4) || (m =? 6) || (m =? 9) || (m =? 11) then 30
  else 31.

(** The values [datetime] accepts: MINYEAR = 1, MAXYEAR = 9999. *)
Definition valid_date (d : datetime) : Prop :=
  1 <= year d <= 9999 /\ 1 <= month d <= 12 /\
  1 <= day d <= days_in_month (year d) (month d).

Definition digit (n : Z) : ascii := ascii_of_nat (48 + Z.to_nat n).

(** [n] in decimal on [w] digits, zero-filled. *)
Fixpoint zero_filled (w : nat) (n : Z) : string :=
  match w with
  | O => EmptyString
  | S w' => zero_filled w' (n / 10) ++ String (digit (n mod 10)) EmptyString
  end.

(** [n] in decimal with no padding, lowest digit last; [fuel] bounds the
    number of digits. *)
Fixpoint decimal_digits (fuel : nat) (n : Z) : string :=
  match fuel with
  | O => EmptyString
  | S fuel' =>
      (if n <? 10 then EmptyString else decimal_digits fuel' (n / 10))
      ++ String (digit (n mod 10)) EmptyString
  end.

(** [n] in decimal: a number has no more decimal digits than binary ones. *)
Definition decimal (n : Z) : string :=
  decimal_digits (S (Z.to_nat (Z.log2 n))) n.

(** [d.strftime("%Y-%m-%d")]: [%Y] is the year in decimal as the C library
    prints it, with no zero-filling (year 5 is [5]); [%m] and [%d] take two
    digits. *)
Definition strftime_Ymd (d : datetime) : string :=
  decimal (year d) ++ "-" ++ zero_filled 2 (month d) ++ "-" ++ zero_filled 2 (day d).

(** Proleptic Gregorian ordinals, after [datetime]'s [_ymd2ord] and
    [_ord2ymd]: 0001-01-01 is day 1. *)
Definition days_before_year (y : Z) : Z :=
  let p := y - 1 in p * 365 + p / 4 - p / 100 + p / 400.

Fixpoint days_before_month_aux (y : Z) (m : nat) : Z :=
  match m with
  | O => 0
  | S m' => days_before_month_aux y m' + days_in_month y (Z.of_nat m)
  end.

Definition days_before_month (y m : Z) : Z :=
  days_before_month_aux y (Z.to_nat (m - 1)).

Definition ymd2ord (y m d : Z) : Z :=
  days_before_year y + days_before_month y m + d.

(** The month and the day of the [n]-th day (from 0) of year [y], searching
    the months upwards from month [m] with [fuel] months left. *)
Fixpoint month_day_from (fuel : nat) (y m n : Z) : Z * Z :=
  match fuel with
  | O => (m, n + 1)
  | S fuel' =>
      if n <? days_in_month y m then (m, n + 1)
      else month_day_from fuel' y (m + 1) (n - days_in_month y m)
  end.

Definition ord2ymd (o : Z) : Z * Z * Z :=
  let n := o - 1 in
  let n400 := n / 146097 in
  let r400 := n mod 146097 in
  let n100 := r400 / 36524 in
  let r100 := r400 mod 36524 in
  let n4 := r100 / 1461 in
  let r4 := r100 mod 1461 in
  let n1 := r4 / 365 in
  let r1 := r4 mod 365 in
  let y := n400 * 400 + 1 + n100 * 100 + n4 * 4 + n1 in
  if (n1 =? 4) || (n100 =? 4) then (y - 1, 12, 31)
  else let '(m, d) := month_day_from 11 y 1 r1 in (y, m, d).

(** [d - timedelta(days=k)]: out of the range of [datetime] it raises. *)
Definition minus_days (d : datetime) (k : Z) : result datetime :=
  let o := ymd2ord (year d) (month d) (day d) - k in
  if (o <? 1) || (3652059 <? o) then Raise OverflowError
  else let '(y, m, dd) := ord2ymd o in
       Ok (mkDate y m dd (seconds_of_day d)).

(** ** The state-and-exception monad *)

(** A computation over a state [S]: its outcome and the state it leaves. An
    exception keeps the mutations made before it was raised. *)
Definition M (S A : Type) : Type := S -> result A * S.

Definition ret {S A} (a : A) : M S A := fun s => (Ok a, s).

Definition raise {S A} (e : exn) : M S A := fun s => (Raise e, s).

Definition bind {S A B} (c : M S A) (k : A -> M S B) : M S B :=
  fun s =>
    match c s with
    | (Ok a, s') => k a s'
    | (Raise e, s') => (Raise e, s')
    end.

Definition lift {S A} (r : result A) : M S A := fun s => (r, s).

Definition gets {S A} (f : S -> A) : M S A := fun s => (Ok (f s), s).

Definition modify {S} (f : S -> S) : M S unit := fun s => (Ok tt, f s).

Declare Scope monad_scope.
Delimit Scope monad_scope with monad.
Notation "x <- c ;; k" := (bind c (fun x => k))
  (at level 61, c at next level, right associativity) : monad_scope.
Notation "c ;;; k" := (bind c (fun _ => k))
  (at level 61, right associativity) : monad_scope.
Local Open Scope monad_scope.

(** ** The wire *)

(** The value of a request header: a literal, or the f-string
    [f"Bearer {token}"], kept with the token it formats. *)
Inductive header_value : Type :=
| Literal (s : string)
| Bearer (token : pyval).

(** What [requests.post(DATA_URL, json=..., headers=..., timeout=30)] sends. *)
Record Request : Type := mkRequest {
  req_headers : list (string * header_value);
  req_json : pyval
}.

(** What comes back: the status code and the body as [resp.json()] decodes
    it, [None] for a body that is not JSON. *)
Record Response : Type := mkResponse {
  status_code : Z;
  body : option pyval
}.

(** The far end, as the client sees it: given the requests already sent and
    the one being sent, either no response at all or a response. *)
Inductive exchange : Type :=
| NoResponse
| Responds (r : Response).

Definition Network : Type := list Request -> Request -> exchange.

(** ** Log records *)

Inductive level : Type := DEBUG | WARNING | ERROR.

Record LogRecord : Type := mkLog {
  log_level : level;
  log_msg : string;
  log_args : list pyval
}.

(** ** api.py: class FrankEnergie *)

(** The client and what it has done: [self.auth], the requests sent so far
    (oldest first), the records logged so far (oldest first), and the clock
    [datetime.utcnow()] reads. *)
Record World : Type := mkWorld {
  auth : pyval;
  sent : list Request;
  logged : list LogRecord;
  utcnow : datetime
}.

Definition set_auth (a : pyval) (w : World) : World :=
  mkWorld a (sent w) (logged w) (utcnow w).

Definition push_request (r : Request) (w : World) : World :=
  mkWorld (auth w) (sent w ++ [r]) (logged w) (utcnow w).

Definition push_log (l : LogRecord) (w : World) : World :=
  mkWorld (auth w) (sent w) (logged w ++ [l]) (utcnow w).

Definition log {S} (inj : LogRecord -> S -> S) (lv : level) (msg : string)
    (args : list pyval) : M S unit :=
  modify (inj (mkLog lv msg args)).

(** [FrankEnergie(auth_token, refresh_token)]: the state after [__init__]. *)
Definition init (auth_token refresh_token : pyval) (clock : datetime) : World :=
  mkWorld
    (if truthy auth_token || truthy refresh_token
     then PyDict [("authToken", auth_token); ("refreshToken", refresh_token)]
     else PyNone)
    [] [] clock.

Definition auth_required : exn := Exception (PyStr "Authentication required").

Definition sentinel : string := "user-error:auth-not-authorised".

(** [self.auth.get("authToken") or self.auth.get("auth_token")]. *)
Definition auth_token_of (a : pyval) : result pyval :=
  rbind (py_get a "authToken") (fun t =>
  if truthy t then Ok t else py_get a "auth_token").

Definition base_headers : list (string * header_value) :=
  [("Content-Type", Literal "application/json");
   ("User-Agent", Literal "Python/FrankV1")].

Definition _headers : M World (list (string * header_value)) :=
  a <- gets auth ;;
  token <- (if truthy a then lift (auth_token_of a) else ret PyNone) ;;
  ret (base_headers
       ++ (if truthy token then [("Authorization", Bearer token)] else []))%list.

(** [resp.raise_for_status()]: requests raises for a client error
    (400 to 499) and for a server error (500 to 599). *)
Definition raise_for_status (r : Response) : result unit :=
  if (400 <=? status_code r) && (status_code r <? 600)
  then Raise (HTTPError (status_code r))
  else Ok tt.

(** [resp.json()]. *)
Definition json_of (r : Response) : result pyval :=
  match body r with
  | Some v => Ok v
  | None => Raise JSONDecodeError
  end.

(** The body of the loop [for err in ...] of [query], over the elements
    still to visit. *)
Fixpoint scan_errors (errs : list pyval) : result unit :=
  match errs with
  | [] => Ok tt
  | err :: rest =>
      rbind (py_get err "message") (fun msg =>
      if eq_str msg sentinel then Raise auth_required else scan_errors rest)
  end.

Fixpoint chars (s : string) : list pyval :=
  match s with
  | EmptyString => []
  | String c rest => PyStr (String c EmptyString) :: chars rest
  end.

(** [for err in v]: the elements of a list, the keys of a dict, the
    characters of a str; the other values are not iterable. *)
Definition py_iter (v : pyval) : result (list pyval) :=
  match v with
  | PyList l => Ok l
  | PyDict kv => Ok (map (fun p => PyStr (fst p)) kv)
  | PyStr s => Ok (chars s)
  | _ => Raise TypeError
  end.

Section Client.

Variable net : Network.

(** [requests.post]. *)
Definition post (payload : pyval) (h : list (string * header_value)) : M World Response :=
  fun w =>
    let rq := mkRequest h payload in
    match net (sent w) rq with
    | NoResponse => (Raise RequestFailed, push_request rq w)
    | Responds r => (Ok r, push_request rq w)
    end.

Definition query (query_data : pyval) : M World pyval :=
  h <- _headers ;;
  resp <- post query_data h ;;
  lift (raise_for_status resp) ;;;
  data <- lift (json_of resp) ;;
  match data with
  | PyDict kv =>
      if dict_has kv "errors" then
        errs <- lift (rbind (py_get data "errors") (fun e => py_iter (py_or e (PyList [])))) ;;
        lift (scan_errors errs) ;;;
        e <- lift (py_item data "errors") ;;
        log push_log DEBUG "GraphQL errors: %s" [e] ;;;
        ret data
      else ret data
  | _ => ret data
  end.

Definition login_query : string := "
                mutation Login($email: String!, $password: String!) {
                  login(email: $email, password: $password) {
                    authToken
                    refreshToken
                  }
                }
            ".

(** [not data or "data" not in data or not data["data"].get("login")]. *)
Definition no_login_payload (data : pyval) : result bool :=
  if negb (truthy data) then Ok true
  else rbind (py_contains data "data") (fun has =>
       if negb has then Ok true
       else rbind (py_item data "data") (fun d =>
            rbind (py_get d "login") (fun l => Ok (negb (truthy l))))).

(** The request body of [login]. *)
Definition login_payload (username password : pyval) : pyval :=
  PyDict [
    ("query", PyStr login_query);
    ("operationName", PyStr "Login");
    ("variables", PyDict [("email", username); ("password", password)])].

Definition login (username password : pyval) : M World pyval :=
  data <- query (login_payload username password) ;;
  failed <- lift (no_login_payload data) ;;
  if failed then
    errs <- (if truthy data then lift (py_get data "errors") else ret data) ;;
    if truthy errs then
      e <- lift (rbind (py_item data "errors") py_first) ;;
      m <- lift (py_get_default e "message" (PyStr "Login failed")) ;;
      raise (Exception m)
    else raise (Exception (PyStr "Login failed: empty response"))
  else
    d <- lift (py_item data "data") ;;
    l <- lift (py_item d "login") ;;
    modify (set_auth l) ;;;
    gets auth.

(** The guard every read starts with: [if not self.auth: raise ...]. *)
Definition require_auth : M World unit :=
  a <- gets auth ;;
  if negb (truthy a) then raise auth_required else ret tt.

Definition smart_batteries_query : string := "
                query SmartBatteries {
                  smartBatteries { id }
                }
            ".

Definition get_smart_batteries : M World pyval :=
  require_auth ;;;
  query (PyDict [
    ("query", PyStr smart_batteries_query);
    ("operationName", PyStr "SmartBatteries")]).

Definition smart_battery_summary_query : string := "
                query SmartBatterySummary($deviceId: String!) {
                  smartBatterySummary(deviceId: $deviceId) {
                    lastKnownStateOfCharge
                    lastKnownStatus
                    lastUpdate
                    totalResult
                  }
                }
            ".

Definition get_smart_battery_summary (device_id : pyval) : M World pyval :=
  require_auth ;;;
  query (PyDict [
    ("query", PyStr smart_battery_summary_query);
    ("operationName", PyStr "SmartBatterySummary");
    ("variables", PyDict [("deviceId", device_id)])]).

Definition smart_battery_query : string := "
                query SmartBattery($deviceId: String!) {
                  smartBattery(deviceId: $deviceId) {
                    brand
                    capacity
                    id
                    settings {
                      batteryMode
                      imbalanceTradingStrategy
                      selfConsumptionTradingAllowed
                    }
                  }
                }
            ".

Definition get_smart_battery (device_id : pyval) : M World pyval :=
  require_auth ;;;
  query (PyDict [
    ("query", PyStr smart_battery_query);
    ("operationName", PyStr "SmartBattery");
    ("variables", PyDict [("deviceId", device_id)])]).

Definition smart_battery_sessions_query : string := "
                query SmartBatterySessions($startDate: String!, $endDate: String!, $deviceId: String!) {
                  smartBatterySessions(
                    startDate: $startDate
                    endDate: $endDate
                    deviceId: $deviceId
                  ) {
                    deviceId
                    fairUsePolicyVerified
                    periodStartDate
                    periodEndDate
                    periodEpexResult
                    periodFrankSlim
                    periodImbalanceResult
                    periodTotalResult
                    periodTradeIndex
                    periodTradingResult
                    sessions {
                      cumulativeResult
                      date
                      result
                      status
                      tradeIndex
                    }
                  }
                }
            ".

(** The request body of [get_smart_battery_sessions]. *)
Definition sessions_payload (device_id : pyval) (start_date end_date : datetime) : pyval :=
  PyDict [
    ("query", PyStr smart_battery_sessions_query);
    ("operationName", PyStr "SmartBatterySessions");
    ("variables", PyDict [
       ("deviceId", device_id);
       ("startDate", PyStr (strftime_Ymd start_date));
       ("endDate", PyStr (strftime_Ymd end_date))])].

Definition get_smart_battery_sessions (device_id : pyval)
    (start_date end_date : datetime) : M World pyval :=
  require_auth ;;;
  query (sessions_payload device_id start_date end_date).

Definition is_authenticated : M World bool :=
  a <- gets auth ;;
  if truthy a then
    t <- lift (auth_token_of a) ;;
    ret (truthy t)
  else ret false.

End Client.

(** ** sensor.py: class FrankBatteryCoordinator *)

(** The attributes of one coordinator. *)
Record Coordinator : Type := mkCoordinator {
  device_id : pyval;
  summary : pyval;
  sessions_node : pyval
}.

(** A coordinator with the client it polls through. *)
Record Hass : Type := mkHass {
  world : World;
  coordinator : Coordinator
}.

Definition set_summary (v : pyval) (h : Hass) : Hass :=
  mkHass (world h)
    (mkCoordinator (device_id (coordinator h)) v (sessions_node (coordinator h))).

Definition set_sessions_node (v : pyval) (h : Hass) : Hass :=
  mkHass (world h)
    (mkCoordinator (device_id (coordinator h)) (summary (coordinator h)) v).

Definition hass_log (l : LogRecord) (h : Hass) : Hass :=
  mkHass (push_log l (world h)) (coordinator h).

(** A computation of the client, run by the coordinator. *)
Definition on_client {A} (c : M World A) : M Hass A :=
  fun h => let '(r, w) := c (world h) in (r, mkHass w (coordinator h)).

(** [FrankBatteryCoordinator(hass, logger, client, device_id)] after
    [__init__]. *)
Definition new_coordinator (w : World) (dev : pyval) : Hass :=
  mkHass w (mkCoordinator dev PyNone PyNone).

(** [((resp or {}).get("data") or {}).get(field)]. *)
Definition nested_field (resp : pyval) (field : string) : result pyval :=
  rbind (py_get (py_or resp (PyDict [])) "data") (fun d =>
  py_get (py_or d (PyDict [])) field).

Section Coordinator.

Variable net : Network.

(** The inner function [_fetch]. *)
Definition _fetch : M Hass (pyval * pyval) :=
  dev <- gets (fun h => device_id (coordinator h)) ;;
  summ <- on_client (get_smart_battery_summary net dev) ;;
  end_ <- gets (fun h => utcnow (world h)) ;;
  start <- lift (minus_days end_ 7) ;;
  sess <- on_client (get_smart_battery_sessions net dev start end_) ;;
  ret (summ, sess).

Definition _async_update_data : M Hass pyval :=
  fetched <- _fetch ;;
  let data := PyDict [("summary", fst fetched); ("sessions", snd fetched)] in
  s <- lift (nested_field (fst fetched) "smartBatterySummary") ;;
  modify (set_summary s) ;;;
  node <- lift (nested_field (snd fetched) "smartBatterySessions") ;;
  if negb (truthy node) then
    dev <- gets (fun h => device_id (coordinator h)) ;;
    log hass_log WARNING "Geen smartBatterySessions in response voor %s" [dev] ;;;
    modify (set_sessions_node PyNone) ;;;
    ret data
  else
    sessions <- (if is_dict node
                 then lift (rbind (py_get node "sessions") (fun x => Ok (py_or x (PyList []))))
                 else ret (PyList [])) ;;
    p <- lift (py_get node "periodTradingResult") ;;
    modify (set_sessions_node
              (PyDict [("periodTradingResult", p); ("sessions", sessions)])) ;;;
    ret data.

End Coordinator.

(** ** sensor.py: the entities *)

(** [FrankBatterySummarySensor.state]. *)
Definition summary_state (c : Coordinator) : result pyval :=
  py_get (py_or (summary c) (PyDict [])) "lastKnownStatus".

(** [FrankBatteryTradingResultSensor.state]. *)
Definition trading_result_state (c : Coordinator) : result pyval :=
  let node := py_or (sessions_node c) (PyDict []) in
  rbind (py_get node "periodTradingResult") (fun p =>
  if negb (is_none p) then py_item node "periodTradingResult"
  else
    rbind (py_get node "sessions") (fun s =>
    let sessions := py_or s (PyList []) in
    if truthy sessions then
      rbind (py_last sessions) (fun last => py_get last "cumulativeResult")
    else Ok PyNone)).

(** * Specification vocabulary *)

(** An HTTP exchange takes place when [query payload] runs in [w]: the
    headers can be built and the far end answers [r]. *)
Definition answers (net : Network) (w : World) (payload : pyval) (r : Response) : Prop :=
  exists h, _headers w = (Ok h, w) /\ net (sent w) (mkRequest h payload) = Responds r.

(** Status codes of HTTP: three digits, 100 to 599. *)
Definition http_status (s : Z) : Prop := 100 <= s <= 599.

(** The [message] of an error object. *)
Definition message_of (e : list (string * pyval)) : pyval :=
  match dict_get e "message" with Some m => m | None => PyNone end.

(** A JSON body with a GraphQL errors list, one entry of which carries the
    sentinel message. *)
Definition reports_not_authorised (b : pyval) : Prop :=
  exists kv es e,
    b = PyDict kv /\ dict_get kv "errors" = Some (PyList (map PyDict es)) /\
    In e es /\ message_of e = PyStr sentinel.

(** A far end that answers [r] whatever it is sent. *)
Definition always (r : Response) : Network := fun _ _ => Responds r.

Definition noon : datetime := mkDate 2024 3 5 43200.

Definition not_authorised_body : pyval :=
  PyDict [("errors", PyList [PyDict [("message", PyStr sentinel)]])].

Definition logged_out : World := init PyNone PyNone noon.

Definition logged_in : World := init (PyStr "T") (PyStr "R") noon.

Definition refresh_only : World := init PyNone (PyStr "R") noon.

Definition has_header (k : string) (rq : Request) : bool :=
  existsb (fun p => String.eqb (fst p) k) (req_headers rq).

(** The errors a body reports: none when the member is absent, null or an
    empty list, else the objects of the list. *)
Inductive reports (kv : list (string * pyval)) : list (list (string * pyval)) -> Prop :=
| reports_absent : dict_get kv "errors" = None -> reports kv []
| reports_null : dict_get kv "errors" = Some PyNone -> reports kv []
| reports_list es : dict_get kv "errors" = Some (PyList (map PyDict es)) -> reports kv es.

(** A body with no login payload: no [data] member, or a [data] object in
    which [login] is absent, null or empty. *)
Definition no_login (kv : list (string * pyval)) : Prop :=
  match dict_get kv "data" with
  | None => True
  | Some (PyDict d) =>
      match dict_get d "login" with
      | None => True
      | Some l => truthy l = false
      end
  | Some _ => False
  end.

(** What the error of a failed login carries: the message of the first
    reported error, else the generic text. *)
Definition login_error (es : list (list (string * pyval))) : pyval :=
  match es with
  | e :: _ =>
      match dict_get e "message" with
      | Some m => m
      | None => PyStr "Login failed"
      end
  | [] => PyStr "Login failed: empty response"
  end.

Definition credential (T R : string) : pyval :=
  PyDict [("authToken", PyStr T); ("refreshToken", PyStr R)].

Definition login_body (T R : string) : pyval :=
  PyDict [("data", PyDict [("login", credential T R)])].

Definition bad_creds_body : pyval :=
  PyDict [("errors", PyList [PyDict [("message", PyStr "bad creds")]])].

Definition null_data_body : pyval :=
  PyDict [("data", PyNone);
          ("errors", PyList [PyDict [("message", PyStr "bad creds")]])].

(** The member [field] of the [data] object of a response, [None] when
    there is no such object or no such member. *)
Definition response_field (resp : pyval) (field : string) : pyval :=
  match resp with
  | PyDict kv =>
      match dict_get kv "data" with
      | Some (PyDict d) =>
          match dict_get d field with
          | Some v => v
          | None => PyNone
          end
      | _ => PyNone
      end
  | _ => PyNone
  end.

(** A GraphQL response: a JSON object whose [data] member, when there is
    one, is null or an object. *)
Definition graphql_response (resp : pyval) : Prop :=
  exists kv, resp = PyDict kv /\
    match dict_get kv "data" with
    | None | Some PyNone | Some (PyDict _) => True
    | Some _ => False
    end.

(** A GraphQL response that lacks the node [field]: [data] is absent or
    null, or it is an object with no member [field]. *)
Definition lacks_field (resp : pyval) (field : string) : Prop :=
  exists kv, resp = PyDict kv /\
    match dict_get kv "data" with
    | None | Some PyNone => True
    | Some (PyDict d) => dict_get d field = None
    | Some _ => False
    end.

(** A sessions response from which [_async_update_data] can build the
    window: the node is missing, null or empty, or it is an object. *)
Definition sessions_response (resp : pyval) : Prop :=
  graphql_response resp /\
  match response_field resp "smartBatterySessions" with
  | PyDict _ => True
  | v => truthy v = false
  end.

(** What [_async_update_data] does with the two responses [_fetch] returns. *)
Definition digest (summ sess : pyval) : M Hass pyval :=
  let data := PyDict [("summary", summ); ("sessions", sess)] in
  s <- lift (nested_field summ "smartBatterySummary") ;;
  modify (set_summary s) ;;;
  node <- lift (nested_field sess "smartBatterySessions") ;;
  if negb (truthy node) then
    dev <- gets (fun h => device_id (coordinator h)) ;;
    log hass_log WARNING "Geen smartBatterySessions in response voor %s" [dev] ;;;
    modify (set_sessions_node PyNone) ;;;
    ret data
  else
    sessions <- (if is_dict node
                 then lift (rbind (py_get node "sessions") (fun x => Ok (py_or x (PyList []))))
                 else ret (PyList [])) ;;
    p <- lift (py_get node "periodTradingResult") ;;
    modify (set_sessions_node
              (PyDict [("periodTradingResult", p); ("sessions", sessions)])) ;;;
    ret data.

(** The warning of a poll without sessions. *)
Definition no_sessions_warning (dev : pyval) : LogRecord :=
  mkLog WARNING "Geen smartBatterySessions in response voor %s" [dev].

(** A far end that answers the summary query with [summ] and every other
    request with [sess], both with status 200. *)
Definition serving (summ sess : pyval) : Network :=
  fun _ rq =>
    match py_get (req_json rq) "operationName" with
    | Ok op =>
        if eq_str op "SmartBatterySummary"
        then Responds (mkResponse 200 (Some summ))
        else Responds (mkResponse 200 (Some sess))
    | Raise _ => Responds (mkResponse 200 (Some sess))
    end.

Definition summary_body : pyval :=
  PyDict [("data", PyDict [("smartBatterySummary", PyDict [
    ("lastKnownStateOfCharge", PyInt 80);
    ("lastKnownStatus", PyStr "CHARGING");
    ("lastUpdate", PyStr "2024-03-05T11:45:00Z");
    ("totalResult", PyInt 120)])])].

Definition empty_data_body : pyval := PyDict [("data", PyDict [])].

Definition battery : Hass :=
  mkHass logged_in
    (mkCoordinator (PyStr "dev-1")
       (PyDict [("lastKnownStatus", PyStr "IDLE")])
       (PyDict [("periodTradingResult", PyInt 7); ("sessions", PyList [])])).

(** A Session Window: the aggregate of the period and the sessions, oldest
    first, each a JSON object. *)
Record SessionWindow : Type := mkWindow {
  periodTradingResult : pyval;
  sessions : list (list (string * pyval))
}.

(** The window as [_async_update_data] stores it in [self.sessions_node]. *)
Definition cached (sw : SessionWindow) : pyval :=
  PyDict [("periodTradingResult", periodTradingResult sw);
          ("sessions", PyList (map PyDict (sessions sw)))].

(** The current trading result, in the words of the specification: the
    aggregate when it is present, else the [cumulativeResult] of the last
    session when there is one, else nothing. *)
Definition current_trading_result (sw : SessionWindow) : pyval :=
  if is_none (periodTradingResult sw) then
    match sessions sw with
    | [] => PyNone
    | s :: rest =>
        match dict_get (last rest s) "cumulativeResult" with
        | Some v => v
        | None => PyNone
        end
    end
  else periodTradingResult sw.

Definition session (date : string) (cumulative result : Z) : pyval :=
  PyDict [("cumulativeResult", PyInt cumulative);
          ("date", PyStr date);
          ("result", PyInt result);
          ("status", PyStr "COMPLETED");
          ("tradeIndex", PyInt 1)].

(** A sessions response with two sessions and the aggregate [p]. *)
Definition two_sessions_body (p : pyval) : pyval :=
  PyDict [("data", PyDict [("smartBatterySessions", PyDict [
    ("deviceId", PyStr "dev-1");
    ("periodTradingResult", p);
    ("sessions", PyList [session "2024-01-01" 10 10; session "2024-01-02" 15 5])])])].

(** The variable [name] of a request body. *)
Definition query_variable (payload : pyval) (name : string) : option pyval :=
  match payload with
  | PyDict kv =>
      match dict_get kv "variables" with
      | Some (PyDict vars) => dict_get vars name
      | _ => None
      end
  | _ => None
  end.

Definition digit_value (c : ascii) : option Z :=
  let n := Z.of_nat (nat_of_ascii c) - 48 in
  if (0 <=? n) && (n <=? 9) then Some n else None.

(** The number a run of decimal digits writes. *)
Fixpoint number_of (acc : Z) (cs : list ascii) : option Z :=
  match cs with
  | [] => Some acc
  | c :: rest =>
      match digit_value c with
      | Some v => number_of (acc * 10 + v) rest
      | None => None
      end
  end.

(** Reading a date in the form YYYY-MM-DD: ten characters, four digits, a
    hyphen, two digits, a hyphen, two digits. *)
Definition read_Ymd (s : string) : option (Z * Z * Z) :=
  match list_ascii_of_string s with
  | [y1; y2; y3; y4; h1; m1; m2; h2; d1; d2] =>
      if Ascii.eqb h1 "-" && Ascii.eqb h2 "-" then
        match number_of 0 [y1; y2; y3; y4], number_of 0 [m1; m2], number_of 0 [d1; d2] with
        | Some y, Some m, Some d => Some (y, m, d)
        | _, _, _ => None
        end
      else None
  | _ => None
  end.

(** What [query] does once the response [r] is in: the status check, the
    decoding of the body and the scan of the errors list. *)
Definition after_response (r : Response) : M World pyval :=
  lift (raise_for_status r) ;;;
  data <- lift (json_of r) ;;
  match data with
  | PyDict kv =>
      if dict_has kv "errors" then
        errs <- lift (rbind (py_get data "errors") (fun e => py_iter (py_or e (PyList [])))) ;;
        lift (scan_errors errs) ;;;
        e <- lift (py_item data "errors") ;;
        log push_log DEBUG "GraphQL errors: %s" [e] ;;;
        ret data
      else ret data
  | _ => ret data
  end.

(** A read operation [c] that, run in [w], passes its guard and sends
    exactly one request, which has no [Authorization] header. *)
Definition sends_bare (net : Network) (c : M World pyval) (w : World) : Prop :=
  exists payload,
    c w = query net payload w /\
    sent (snd (c w)) = (sent w ++ [mkRequest base_headers payload])%list /\
    has_header "Authorization" (mkRequest base_headers payload) = false.

(** ** sensor.py: the rest of the entities and of the setup *)

(** [FrankBatterySummarySensor.extra_state_attributes]. *)
Definition summary_attributes (c : Coordinator) : result pyval :=
  let s := py_or (summary c) (PyDict []) in
  rbind (py_get s "lastKnownStateOfCharge") (fun soc =>
  rbind (py_get s "lastUpdate") (fun last_update =>
  rbind (py_get s "totalResult") (fun total =>
  Ok (PyDict [("soc", soc); ("last_update", last_update); ("total_result", total)])))).

(** [len(v)]. *)
Definition py_len (v : pyval) : result Z :=
  match v with
  | PyList l => Ok (Z.of_nat (List.length l))
  | PyStr s => Ok (Z.of_nat (String.length s))
  | PyDict kv => Ok (Z.of_nat (List.length kv))
  | _ => Raise TypeError
  end.

(** [sessions[-1].get(k) if sessions else None]. *)
Definition last_session_field (sessions : pyval) (k : string) : result pyval :=
  if truthy sessions then rbind (py_last sessions) (fun l => py_get l k)
  else Ok PyNone.

(** [FrankBatteryTradingResultSensor.extra_state_attributes]. *)
Definition trading_attributes (c : Coordinator) : result pyval :=
  let node := py_or (sessions_node c) (PyDict []) in
  rbind (py_get node "sessions") (fun s =>
  let sessions := py_or s (PyList []) in
  rbind (py_len sessions) (fun n =>
  rbind (last_session_field sessions "result") (fun r =>
  rbind (last_session_field sessions "status") (fun st =>
  Ok (PyDict [("sessions_count", PyInt n);
              ("last_session_result", r);
              ("last_session_status", st)]))))).

Definition DOMAIN : string := "frank_energie_slim".

(** The names the constructors build, for a device identifier that is a
    [str], as the constructors declare it. *)
Definition coordinator_name (dev : string) : string := DOMAIN ++ "_" ++ dev.

Definition summary_sensor_name (dev : string) : string :=
  "Frank Smart Battery " ++ dev ++ " Status".

Definition summary_sensor_unique_id (dev : string) : string :=
  DOMAIN ++ "_" ++ dev ++ "_status".

Definition trading_sensor_name (dev : string) : string :=
  "Frank Smart Battery " ++ dev ++ " Trading Result".

Definition trading_sensor_unique_id (dev : string) : string :=
  DOMAIN ++ "_" ++ dev ++ "_trading_result".

(** [[b["id"] for b in bs]], over the elements still to visit. *)
Fixpoint ids_of (bs : list pyval) : result (list pyval) :=
  match bs with
  | [] => Ok []
  | b :: rest =>
      rbind (py_item b "id") (fun i =>
      rbind (ids_of rest) (fun others => Ok (i :: others)))
  end.

(** [async_setup_entry]: the comprehension
    [[b["id"] for b in (batteries_resp.get("data") or {}).get("smartBatteries", [])]]. *)
Definition device_ids_of (batteries_resp : pyval) : result (list pyval) :=
  rbind (py_get batteries_resp "data") (fun d =>
  rbind (py_get_default (py_or d (PyDict [])) "smartBatteries" (PyList [])) (fun bs =>
  rbind (py_iter bs) ids_of)).

(** [async_setup_entry], from the response of [get_smart_batteries] to the
    loop over the devices: an exception of the comprehension is caught,
    logged as an error and ends the setup; no identifier is logged as a
    warning and ends the setup; else the loop runs over the identifiers. *)
Inductive discovery : Type :=
| ParseFailed (e : exn)
| NoBatteries
| Devices (ids : list pyval).

Definition discover (batteries_resp : pyval) : discovery :=
  match device_ids_of batteries_resp with
  | Raise e => ParseFailed e
  | Ok [] => NoBatteries
  | Ok (i :: ids) => Devices (i :: ids)
  end.

(** ** Vocabulary of the further properties *)

(** The [operationName] of a request body. *)
Definition operation_name (payload : pyval) : option pyval :=
  match payload with
  | PyDict kv => dict_get kv "operationName"
  | _ => None
  end.

(** The computation [c], run in [w], sends exactly one request: it has the
    headers [h], names the operation [op] and carries the device [dev]. *)
Definition sends_one (c : M World pyval) (w : World)
    (h : list (string * header_value)) (op : string) (dev : option pyval) : Prop :=
  exists payload,
    sent (snd (c w)) = (sent w ++ [mkRequest h payload])%list /\
    operation_name payload = Some (PyStr op) /\
    query_variable payload "deviceId" = dev.

(** A body with an [errors] member, which [query] scans. *)
Definition has_errors (b : pyval) : bool :=
  match b with
  | PyDict kv => dict_has kv "errors"
  | _ => false
  end.

(** The headers of a request that carries the token [t]. *)
Definition bearer_headers (t : pyval) : list (string * header_value) :=
  (base_headers ++ [("Authorization", Bearer t)])%list.

(** The record [query] logs for the errors it lets through. *)
Definition errors_record (errs : pyval) : LogRecord :=
  mkLog DEBUG "GraphQL errors: %s" [errs].

(** The member [k] of an object, [None] when it has none. *)
Definition member (kv : list (string * pyval)) (k : string) : pyval :=
  match dict_get kv k with Some v => v | None => PyNone end.

(** The request body of [get_smart_battery_summary]. *)
Definition summary_payload (dev : pyval) : pyval :=
  PyDict [
    ("query", PyStr smart_battery_summary_query);
    ("operationName", PyStr "SmartBatterySummary");
    ("variables", PyDict [("deviceId", dev)])].

(** A response of [get_smart_batteries] that lists the batteries [bs]. *)
Definition batteries_body (bs : list pyval) : pyval :=
  PyDict [("data", PyDict [("smartBatteries", PyList bs)])].

Definition battery_of (i : pyval) : list (string * pyval) := [("id", i)].

(** The sessions a node lists: none when the member is absent or null,
    else the objects of the list. *)
Inductive lists_sessions (nd : list (string * pyval)) :
    list (list (string * pyval)) -> Prop :=
| sessions_absent : dict_get nd "sessions" = None -> lists_sessions nd []
| sessions_null : dict_get nd "sessions" = Some PyNone -> lists_sessions nd []
| sessions_listed ss :
    dict_get nd "sessions" = Some (PyList (map PyDict ss)) -> lists_sessions nd ss.

(** The member [k] of the last of the sessions, [None] when there is no
    session. *)
Definition last_field (ss : list (list (string * pyval))) (k : string) : pyval :=
  match ss with
  | [] => PyNone
  | s :: rest => member (last rest s) k
  end.

(** The sessions response whose node is [node]. *)
Definition sessions_body (node : pyval) : pyval :=
  PyDict [("data", PyDict [("smartBatterySessions", node)])].

(** Run in [w], [get_smart_battery_sessions] sends exactly one request,
    with the headers [h], whose [startDate] is [a] and whose [endDate] is
    [b]. *)
Definition sends_window (net : Network) (w : World)
    (h : list (string * header_value)) (dev : pyval)
    (start_date end_date : datetime) (a b : string) : Prop :=
  exists payload,
    sent (snd (get_smart_battery_sessions net dev start_date end_date w))
      = (sent w ++ [mkRequest h payload])%list /\
    query_variable payload "startDate" = Some (PyStr a) /\
    query_variable payload "endDate" = Some (PyStr b).

(** The two dates go out in the form YYYY-MM-DD. *)
Definition sends_iso_dates (net : Network) (w : World)
    (h : list (string * header_value)) (dev : pyval)
    (start_date end_date : datetime) : Prop :=
  exists a b,
    sends_window net w h dev start_date end_date a b /\
    read_Ymd a = Some (year start_date, month start_date, day start_date) /\
    read_Ymd b = Some (year end_date, month end_date, day end_date).

(** The fifth of March of the year 5. *)
Definition early : datetime := mkDate 5 3 5 0.

(** * Theorems *)

Unset Implicit Arguments.

Lemma bind_ok {S A B} (c : M S A) (k : A -> M S B) s a s' :
  c s = (Ok a, s') -> bind c k s = k a s'.
Proof. intros H. unfold bind. now rewrite H. Qed.

Lemma bind_raise {S A B} (c : M S A) (k : A -> M S B) s e s' :
  c s = (Raise e, s') -> bind c k s = (Raise e, s').
Proof. intros H. unfold bind. now rewrite H. Qed.

(** ** Date arithmetic, on a few days *)

Example minus_days_march :
  minus_days (mkDate 2024 3 5 0) 7 = Ok (mkDate 2024 2 27 0).
Proof. reflexivity. Qed.

Example minus_days_new_year :
  minus_days (mkDate 2023 1 3 61) 7 = Ok (mkDate 2022 12 27 61).
Proof. reflexivity. Qed.

Example minus_days_leap_day :
  minus_days (mkDate 2024 3 7 0) 7 = Ok (mkDate 2024 2 29 0).
Proof. reflexivity. Qed.

Example minus_days_year_end :
  minus_days (mkDate 2025 1 7 0) 7 = Ok (mkDate 2024 12 31 0).
Proof. reflexivity. Qed.

Example minus_days_underflow :
  minus_days (mkDate 1 1 3 0) 7 = Raise OverflowError.
Proof. reflexivity. Qed.

(** ** The guard of the read operations *)

Lemma require_auth_none w :
  truthy (auth w) = false -> require_auth w = (Raise auth_required, w).
Proof.
  intros H. unfold require_auth, bind, gets. now rewrite H.
Qed.

Lemma require_auth_some w :
  truthy (auth w) = true -> require_auth w = (Ok tt, w).
Proof.
  intros H. unfold require_auth, bind, gets. now rewrite H.
Qed.

(** C3, as the code has it. With no credential held ([self.auth] is [None],
    or empty), each of the four read operations raises
    [Exception("Authentication required")] and leaves the client as it was:
    in particular nothing was sent. *)
Theorem reads_need_credential (net : Network) (w : World) (dev : pyval)
    (start_date end_date : datetime) :
  truthy (auth w) = false ->
  get_smart_batteries net w = (Raise auth_required, w) /\
  get_smart_battery_summary net dev w = (Raise auth_required, w) /\
  get_smart_battery net dev w = (Raise auth_required, w) /\
  get_smart_battery_sessions net dev start_date end_date w = (Raise auth_required, w).
Proof.
  intros H.
  unfold get_smart_batteries, get_smart_battery_summary, get_smart_battery,
    get_smart_battery_sessions.
  repeat split; apply bind_raise; now apply require_auth_none.
Qed.

Lemma reads_need_credential_witness :
  get_smart_batteries (always (mkResponse 200 (Some (PyDict [])))) logged_out
    = (Raise auth_required, logged_out) /\
  sent logged_out = [].
Proof.
  split; [| reflexivity].
  apply (reads_need_credential (always (mkResponse 200 (Some (PyDict []))))
           logged_out PyNone noon noon).
  reflexivity.
Defined.

(** C3, as the spec has it, fails: a client that holds a refresh token and
    no auth token is not authenticated, and yet its reads pass the guard and
    go out on the wire. *)
Lemma unauthenticated_read_goes_out :
  ~ (forall (net : Network) (w : World) (dev : pyval) (start_date end_date : datetime),
       is_authenticated w = (Ok false, w) ->
       get_smart_batteries net w = (Raise auth_required, w) /\
       get_smart_battery_summary net dev w = (Raise auth_required, w) /\
       get_smart_battery net dev w = (Raise auth_required, w) /\
       get_smart_battery_sessions net dev start_date end_date w
         = (Raise auth_required, w)).
Proof.
  intros H.
  destruct (H (always (mkResponse 200 (Some (PyDict [])))) refresh_only
              PyNone noon noon eq_refl) as (Habs & _).
  vm_compute in Habs. discriminate Habs.
Qed.

(** ** The exchange of [query] *)

Lemma query_exchange (net : Network) (payload : pyval) (w : World) h :
  _headers w = (Ok h, w) ->
  query net payload w =
    match net (sent w) (mkRequest h payload) with
    | NoResponse => (Raise RequestFailed, push_request (mkRequest h payload) w)
    | Responds r => after_response r (push_request (mkRequest h payload) w)
    end.
Proof.
  intros H. unfold query. rewrite (bind_ok _ _ _ _ _ H).
  unfold bind at 1. unfold post.
  destruct (net (sent w) (mkRequest h payload)); reflexivity.
Qed.

Lemma after_response_frame (r : Response) (w : World) :
  sent (snd (after_response r w)) = sent w /\
  auth (snd (after_response r w)) = auth w /\
  utcnow (snd (after_response r w)) = utcnow w.
Proof.
  unfold after_response, bind, lift, log, modify, ret.
  destruct (raise_for_status r); [| now simpl].
  destruct (json_of r) as [d |]; [| now simpl].
  destruct d; try now simpl.
  destruct (dict_has kv "errors"); [| now simpl].
  destruct (rbind _ _); [| now simpl].
  destruct (scan_errors a0); [| now simpl].
  destruct (py_item _ _); now simpl.
Qed.

Lemma query_frame (net : Network) (payload : pyval) (w : World) h :
  _headers w = (Ok h, w) ->
  sent (snd (query net payload w)) = (sent w ++ [mkRequest h payload])%list /\
  auth (snd (query net payload w)) = auth w.
Proof.
  intros H. rewrite (query_exchange net payload w h H).
  destruct (net (sent w) (mkRequest h payload)) as [| r].
  - now simpl.
  - destruct (after_response_frame r (push_request (mkRequest h payload) w))
      as (Hs & Ha & _).
    now rewrite Hs, Ha.
Qed.

(** ** A credential without a token *)

Lemma headers_without_token (a rt : pyval) (clock : datetime) :
  truthy a = false -> truthy rt = true ->
  _headers (init a rt clock) = (Ok base_headers, init a rt clock).
Proof.
  intros Ha Hr. unfold init. rewrite Ha, Hr. simpl.
  unfold _headers, bind, gets, lift, auth_token_of. simpl.
  rewrite Ha. simpl. reflexivity.
Qed.

Lemma guard_then_query (net : Network) (payload : pyval) (w : World) :
  truthy (auth w) = true ->
  _headers w = (Ok base_headers, w) ->
  sends_bare net (require_auth ;;; query net payload) w.
Proof.
  intros Ht Hh. exists payload.
  rewrite (bind_ok _ _ _ _ _ (require_auth_some w Ht)).
  split; [reflexivity |]. split; [| reflexivity].
  now apply query_frame.
Qed.

(** C4. A client built with no auth token (absent or empty) and a refresh
    token holds a credential: [is_authenticated] answers [False], yet the
    guard of the read operations passes, and each of them sends its request,
    with no [Authorization] header. *)
Theorem token_less_credential (net : Network) (a rt dev : pyval)
    (clock start_date end_date : datetime) :
  truthy a = false -> truthy rt = true ->
  let w := init a rt clock in
  is_authenticated w = (Ok false, w) /\
  require_auth w = (Ok tt, w) /\
  sends_bare net (get_smart_batteries net) w /\
  sends_bare net (get_smart_battery_summary net dev) w /\
  sends_bare net (get_smart_battery net dev) w /\
  sends_bare net (get_smart_battery_sessions net dev start_date end_date) w.
Proof.
  intros Ha Hr w.
  assert (Ht : truthy (auth w) = true).
  { unfold w, init. now rewrite Ha, Hr. }
  assert (Hh := headers_without_token a rt clock Ha Hr). fold w in Hh.
  split.
  { unfold w, init, is_authenticated, bind, gets, lift, auth_token_of.
    rewrite Ha, Hr. simpl. rewrite Ha. simpl. reflexivity. }
  split; [now apply require_auth_some |].
  repeat split; now apply guard_then_query.
Qed.

Lemma token_less_credential_witness :
  is_authenticated refresh_only = (Ok false, refresh_only) /\
  sends_bare (always (mkResponse 200 (Some (PyDict []))))
    (get_smart_batteries (always (mkResponse 200 (Some (PyDict []))))) refresh_only.
Proof.
  pose proof (token_less_credential (always (mkResponse 200 (Some (PyDict []))))
                PyNone (PyStr "R") PyNone noon noon noon eq_refl eq_refl) as H.
  split; [exact (proj1 H) | exact (proj1 (proj2 (proj2 H)))].
Defined.

(** ** Error statuses *)

Lemma raise_for_status_error (r : Response) :
  http_status (status_code r) -> 400 <= status_code r ->
  raise_for_status r = Raise (HTTPError (status_code r)).
Proof.
  unfold http_status, raise_for_status. intros Hs Hge.
  replace (400 <=? status_code r) with true by (symmetry; apply Z.leb_le; lia).
  replace (status_code r <? 600) with true by (symmetry; apply Z.ltb_lt; lia).
  reflexivity.
Qed.

Lemma raise_for_status_fine (r : Response) :
  status_code r < 400 -> raise_for_status r = Ok tt.
Proof.
  unfold raise_for_status. intros Hlt.
  replace (400 <=? status_code r) with false by (symmetry; apply Z.leb_gt; lia).
  reflexivity.
Qed.

(** C5. When the response has an error status (400 and up), [query] raises
    the HTTP error of [raise_for_status], whatever the body is: the outcome
    is not the authentication error, and no GraphQL error is logged. *)
Theorem error_status_raises (net : Network) (w : World) (payload : pyval)
    (r : Response) :
  answers net w payload r ->
  http_status (status_code r) -> 400 <= status_code r ->
  fst (query net payload w) = Raise (HTTPError (status_code r)) /\
  fst (query net payload w) <> Raise auth_required /\
  logged (snd (query net payload w)) = logged w.
Proof.
  intros (h & Hh & Hn) Hs Hge.
  rewrite (query_exchange net payload w h Hh), Hn.
  unfold after_response, bind, lift.
  rewrite (raise_for_status_error r Hs Hge). simpl.
  repeat split. discriminate.
Qed.

Lemma error_status_raises_witness :
  answers (always (mkResponse 401 (Some not_authorised_body))) logged_in (PyDict [])
    (mkResponse 401 (Some not_authorised_body)) /\
  fst (query (always (mkResponse 401 (Some not_authorised_body))) (PyDict []) logged_in)
    = Raise (HTTPError 401).
Proof.
  assert (Ha : answers (always (mkResponse 401 (Some not_authorised_body))) logged_in
                 (PyDict []) (mkResponse 401 (Some not_authorised_body))).
  { eexists. split; reflexivity. }
  split; [exact Ha |].
  apply (error_status_raises _ _ _ _ Ha); unfold http_status; simpl; lia.
Defined.

(** ** The sentinel *)

Lemma scan_finds_sentinel (es : list (list (string * pyval))) e :
  In e es -> message_of e = PyStr sentinel ->
  scan_errors (map PyDict es) = Raise auth_required.
Proof.
  intros Hin Hm. induction es as [| x es IH]; [contradiction |].
  simpl. fold (message_of x).
  destruct Hin as [-> | Hin].
  - rewrite Hm. reflexivity.
  - destruct (eq_str (message_of x) sentinel); [reflexivity | now apply IH].
Qed.

Lemma scan_without_sentinel (es : list (list (string * pyval))) :
  Forall (fun e => message_of e <> PyStr sentinel) es ->
  scan_errors (map PyDict es) = Ok tt.
Proof.
  induction 1 as [| x es Hx _ IH]; [reflexivity |].
  simpl. fold (message_of x).
  destruct (eq_str (message_of x) sentinel) eqn:E; [| exact IH].
  exfalso. apply Hx. unfold eq_str in E.
  destruct (message_of x); try discriminate.
  apply String.eqb_eq in E. now subst.
Qed.

Lemma after_response_sentinel (r : Response) (w : World) b :
  status_code r < 400 -> body r = Some b -> reports_not_authorised b ->
  after_response r w = (Raise auth_required, w).
Proof.
  intros Hlt Hb (kv & es & e & -> & Herr & Hin & Hm).
  unfold after_response, bind, lift, json_of.
  rewrite (raise_for_status_fine r Hlt), Hb.
  unfold dict_has, py_get, py_get_default. rewrite Herr. simpl.
  assert (Ht : py_or (PyList (map PyDict es)) (PyList []) = PyList (map PyDict es)).
  { destruct es; [contradiction | reflexivity]. }
  rewrite Ht. simpl. now rewrite (scan_finds_sentinel es e Hin Hm).
Qed.

(** C1, as the code has it. When the response has a status below 400 and
    its body reports the sentinel error, [query] raises
    [Exception("Authentication required")]. *)
Theorem not_authorised_raises (net : Network) (w : World) (payload : pyval)
    (r : Response) (b : pyval) :
  answers net w payload r ->
  status_code r < 400 ->
  body r = Some b -> reports_not_authorised b ->
  fst (query net payload w) = Raise auth_required.
Proof.
  intros (h & Hh & Hn) Hlt Hb Hrep.
  rewrite (query_exchange net payload w h Hh), Hn.
  now rewrite (after_response_sentinel r _ b Hlt Hb Hrep).
Qed.

Lemma not_authorised_body_reports : reports_not_authorised not_authorised_body.
Proof.
  exists [("errors", PyList [PyDict [("message", PyStr sentinel)]])],
         [[("message", PyStr sentinel)]], [("message", PyStr sentinel)].
  repeat split. now left.
Qed.

Lemma not_authorised_raises_witness :
  fst (query (always (mkResponse 200 (Some not_authorised_body))) (PyDict []) logged_in)
    = Raise auth_required.
Proof.
  apply (not_authorised_raises (always (mkResponse 200 (Some not_authorised_body)))
           logged_in (PyDict [])
           (mkResponse 200 (Some not_authorised_body)) not_authorised_body).
  - eexists. split; reflexivity.
  - simpl. lia.
  - reflexivity.
  - exact not_authorised_body_reports.
Defined.

(** C1, as the spec has it, fails: behind status 401 the sentinel is never
    looked at, the call ends in the HTTP error. *)
Lemma not_authorised_behind_401 :
  ~ (forall (net : Network) (w : World) (payload : pyval) (r : Response) (b : pyval),
       answers net w payload r ->
       body r = Some b -> reports_not_authorised b ->
       fst (query net payload w) = Raise auth_required).
Proof.
  intros H.
  specialize (H (always (mkResponse 401 (Some not_authorised_body))) logged_in
                (PyDict []) (mkResponse 401 (Some not_authorised_body))
                not_authorised_body).
  assert (Habs : fst (query (always (mkResponse 401 (Some not_authorised_body)))
                        (PyDict []) logged_in) = Raise auth_required).
  { apply H.
    - eexists. split; reflexivity.
    - reflexivity.
    - exact not_authorised_body_reports. }
  vm_compute in Habs. discriminate Habs.
Qed.

(** ** Bodies that pass [query] *)

Lemma after_response_plain (r : Response) (w : World) kv :
  status_code r < 400 -> body r = Some (PyDict kv) ->
  dict_get kv "errors" = None ->
  after_response r w = (Ok (PyDict kv), w).
Proof.
  intros Hlt Hb He.
  unfold after_response, bind, lift, json_of.
  rewrite (raise_for_status_fine r Hlt), Hb.
  unfold dict_has. now rewrite He.
Qed.

Lemma after_response_reports (r : Response) (w : World) kv es :
  status_code r < 400 -> body r = Some (PyDict kv) ->
  reports kv es -> Forall (fun e => message_of e <> PyStr sentinel) es ->
  fst (after_response r w) = Ok (PyDict kv).
Proof.
  intros Hlt Hb Hrep Hall.
  destruct Hrep as [He | He | es He].
  - now rewrite (after_response_plain r w kv Hlt Hb He).
  - unfold after_response, bind, lift, json_of.
    rewrite (raise_for_status_fine r Hlt), Hb.
    unfold dict_has, py_get, py_get_default, py_item. rewrite He. reflexivity.
  - unfold after_response, bind, lift, json_of.
    rewrite (raise_for_status_fine r Hlt), Hb.
    unfold dict_has, py_get, py_get_default, py_item. rewrite He. simpl.
    assert (Hi : py_iter (py_or (PyList (map PyDict es)) (PyList []))
                 = Ok (map PyDict es)) by now destruct es.
    rewrite Hi, (scan_without_sentinel es Hall). reflexivity.
Qed.

Lemma query_returns (net : Network) (w : World) (payload : pyval)
    (r : Response) kv es :
  answers net w payload r ->
  status_code r < 400 -> body r = Some (PyDict kv) ->
  reports kv es -> Forall (fun e => message_of e <> PyStr sentinel) es ->
  exists w', query net payload w = (Ok (PyDict kv), w') /\ auth w' = auth w.
Proof.
  intros (h & Hh & Hn) Hlt Hb Hrep Hall.
  exists (snd (query net payload w)). split.
  - rewrite (query_exchange net payload w h Hh), Hn.
    rewrite (surjective_pairing (after_response r _)).
    now rewrite (after_response_reports r _ kv es Hlt Hb Hrep Hall).
  - now apply (query_frame net payload w h).
Qed.

(** ** Login *)

(** C9. On the response [{"data": {"login": {"authToken": T, "refreshToken": R}}}]
    with a token [T] (not the empty string), [login] returns the credential
    of the response, which is from then on the whole of [self.auth], and
    [is_authenticated] answers [True]. *)
Theorem login_stores_credential (net : Network) (w : World) (u p : pyval)
    (r : Response) (T R : string) :
  answers net w (login_payload u p) r ->
  status_code r < 400 ->
  body r = Some (login_body T R) ->
  T <> EmptyString ->
  fst (login net u p w) = Ok (credential T R) /\
  auth (snd (login net u p w)) = credential T R /\
  is_authenticated (snd (login net u p w)) = (Ok true, snd (login net u p w)).
Proof.
  intros Hans Hlt Hb HT.
  destruct (query_returns net w (login_payload u p) r _ [] Hans Hlt Hb)
    as (w' & Hq & _).
  { now apply reports_absent. }
  { constructor. }
  unfold login. rewrite (bind_ok _ _ _ _ _ Hq).
  cbn -[credential].
  repeat split.
  apply String.eqb_neq in HT.
  unfold is_authenticated, bind, gets, lift, auth_token_of. cbn.
  rewrite HT. cbn. now rewrite HT.
Qed.

Lemma login_stores_credential_witness :
  fst (login (always (mkResponse 200 (Some (login_body "T" "R"))))
         (PyStr "u") (PyStr "p") logged_out) = Ok (credential "T" "R") /\
  auth (snd (login (always (mkResponse 200 (Some (login_body "T" "R"))))
              (PyStr "u") (PyStr "p") logged_out)) = credential "T" "R" /\
  is_authenticated (snd (login (always (mkResponse 200 (Some (login_body "T" "R"))))
                           (PyStr "u") (PyStr "p") logged_out))
    = (Ok true, snd (login (always (mkResponse 200 (Some (login_body "T" "R"))))
                       (PyStr "u") (PyStr "p") logged_out)).
Proof.
  pose proof (login_stores_credential
                (always (mkResponse 200 (Some (login_body "T" "R"))))
                logged_out (PyStr "u") (PyStr "p")
                (mkResponse 200 (Some (login_body "T" "R"))) "T" "R") as H.
  assert (Ha : answers (always (mkResponse 200 (Some (login_body "T" "R"))))
                 logged_out (login_payload (PyStr "u") (PyStr "p"))
                 (mkResponse 200 (Some (login_body "T" "R")))).
  { eexists. split; reflexivity. }
  assert (Hlt : status_code (mkResponse 200 (Some (login_body "T" "R"))) < 400).
  { simpl. lia. }
  assert (HT : "T" <> EmptyString) by discriminate.
  destruct (H Ha Hlt eq_refl HT) as (H1 & H2 & H3).
  split; [exact H1 |]. split; [exact H2 | exact H3].
Defined.

Lemma no_login_detected kv :
  no_login kv -> no_login_payload (PyDict kv) = Ok true.
Proof.
  unfold no_login, no_login_payload. intros H.
  destruct kv as [| item kv']; [reflexivity |].
  set (d := item :: kv') in *.
  change (truthy (PyDict d)) with true. cbn [negb].
  unfold py_contains, py_item, dict_has, rbind.
  destruct (dict_get d "data") as [v |]; [| reflexivity].
  destruct v; try contradiction.
  cbn. destruct (dict_get kv "login") as [l |]; [| reflexivity].
  now rewrite H.
Qed.

Lemma sentinel_among_or_not (es : list (list (string * pyval))) :
  Forall (fun e => message_of e <> PyStr sentinel) es \/
  Exists (fun e => message_of e = PyStr sentinel) es.
Proof.
  induction es as [| e es [IH | IH]].
  - left. constructor.
  - destruct (eq_str (message_of e) sentinel) eqn:E.
    + right. left. unfold eq_str in E. destruct (message_of e); try discriminate.
      apply String.eqb_eq in E. now subst.
    + left. constructor; [| exact IH].
      intros Hm. rewrite Hm in E. unfold eq_str, sentinel in E.
      now rewrite String.eqb_refl in E.
  - right. now right.
Qed.

(** C6, as the code has it. The response has a status below 400 and a JSON
    object for a body, with no login payload ([data] absent, or an object
    without a login) and the errors [es]. When none of the errors carries
    the sentinel, [login] raises an [Exception] that carries the message of
    the first error (["Login failed"] when that error has none), or
    ["Login failed: empty response"] when there is no error. When one of them
    carries the sentinel, [login] raises the authentication error of [query].
    Either way [self.auth] is what it was. *)
Theorem login_failure (net : Network) (w : World) (u p : pyval)
    (r : Response) kv es :
  answers net w (login_payload u p) r ->
  status_code r < 400 ->
  body r = Some (PyDict kv) ->
  no_login kv -> reports kv es ->
  (Forall (fun e => message_of e <> PyStr sentinel) es ->
   fst (login net u p w) = Raise (Exception (login_error es))) /\
  (Exists (fun e => message_of e = PyStr sentinel) es ->
   fst (login net u p w) = Raise auth_required) /\
  auth (snd (login net u p w)) = auth w.
Proof.
  intros Hans Hlt Hb Hno Hrep.
  assert (Hclean : Forall (fun e => message_of e <> PyStr sentinel) es ->
            fst (login net u p w) = Raise (Exception (login_error es)) /\
            auth (snd (login net u p w)) = auth w).
  { intros Hall.
    destruct (query_returns net w (login_payload u p) r kv es Hans Hlt Hb Hrep Hall)
      as (w' & Hq & Hauth).
    unfold login. rewrite (bind_ok _ _ _ _ _ Hq).
    unfold bind at 1. unfold lift at 1. rewrite (no_login_detected kv Hno).
    destruct kv as [| item kv'].
    - assert (es = []) as -> by (inversion Hrep; [reflexivity .. | discriminate]).
      cbn. now split.
    - set (d := item :: kv') in *.
      change (truthy (PyDict d)) with true. cbv iota.
      unfold bind, lift, py_get, py_get_default, py_item, raise.
      destruct Hrep as [He | He | es He]; rewrite He; cbn; try (now split).
      destruct es as [| e es']; cbn; [now split |].
      destruct (dict_get e "message"); now split. }
  assert (Hdirty : Exists (fun e => message_of e = PyStr sentinel) es ->
            fst (login net u p w) = Raise auth_required /\
            auth (snd (login net u p w)) = auth w).
  { intros Hex. apply Exists_exists in Hex. destruct Hex as (e & Hin & Hm).
    destruct Hans as (h & Hh & Hn).
    assert (Hq : query net (login_payload u p) w
                 = (Raise auth_required, push_request (mkRequest h (login_payload u p)) w)).
    { rewrite (query_exchange net _ w h Hh), Hn.
      apply (after_response_sentinel r _ (PyDict kv) Hlt Hb).
      inversion Hrep as [He | He | es' He Hes]; subst; try contradiction.
      now exists kv, es, e. }
    unfold login. rewrite (bind_raise _ _ _ _ _ Hq). now split. }
  split; [intros H; now apply Hclean |].
  split; [intros H; now apply Hdirty |].
  destruct (sentinel_among_or_not es) as [H | H];
    [now apply Hclean | now apply Hdirty].
Qed.

Lemma login_failure_witness :
  fst (login (always (mkResponse 200 (Some bad_creds_body)))
         (PyStr "u") (PyStr "p") logged_out) = Raise (Exception (PyStr "bad creds")) /\
  auth (snd (login (always (mkResponse 200 (Some bad_creds_body)))
              (PyStr "u") (PyStr "p") logged_out)) = PyNone.
Proof.
  pose proof (login_failure (always (mkResponse 200 (Some bad_creds_body)))
                logged_out (PyStr "u") (PyStr "p")
                (mkResponse 200 (Some bad_creds_body))
                [("errors", PyList [PyDict [("message", PyStr "bad creds")]])]
                [[("message", PyStr "bad creds")]]) as H.
  assert (Ha : answers (always (mkResponse 200 (Some bad_creds_body)))
                 logged_out (login_payload (PyStr "u") (PyStr "p"))
                 (mkResponse 200 (Some bad_creds_body))).
  { eexists. split; reflexivity. }
  assert (Hlt : status_code (mkResponse 200 (Some bad_creds_body)) < 400).
  { simpl. lia. }
  assert (Hr : reports [("errors", PyList [PyDict [("message", PyStr "bad creds")]])]
                 [[("message", PyStr "bad creds")]]).
  { apply reports_list. reflexivity. }
  destruct (H Ha Hlt eq_refl I Hr) as (H1 & _ & H3).
  split; [| exact H3].
  apply H1. constructor; [discriminate | constructor].
Defined.

(** C6, as the spec has it, fails: when the first reported error is the
    sentinel, the error [login] raises carries ["Authentication required"],
    not the reported message. *)
Lemma login_failure_not_authorised :
  ~ (forall (net : Network) (w : World) (u p : pyval) (r : Response) kv es,
       answers net w (login_payload u p) r ->
       status_code r < 400 ->
       body r = Some (PyDict kv) ->
       no_login kv -> reports kv es ->
       fst (login net u p w) = Raise (Exception (login_error es)) /\
       auth (snd (login net u p w)) = auth w).
Proof.
  intros H.
  destruct (H (always (mkResponse 200 (Some not_authorised_body)))
              logged_out (PyStr "u") (PyStr "p")
              (mkResponse 200 (Some not_authorised_body))
              [("errors", PyList [PyDict [("message", PyStr sentinel)]])]
              [[("message", PyStr sentinel)]]) as (Habs & _).
  - eexists. split; reflexivity.
  - simpl. lia.
  - reflexivity.
  - exact I.
  - now apply reports_list.
  - vm_compute in Habs. discriminate Habs.
Qed.

(** A response with a null [data] next to its errors: [login] ends in the
    [AttributeError] of [None.get], and the reported message is lost. *)
Example login_null_data :
  fst (login (always (mkResponse 200 (Some null_data_body)))
         (PyStr "u") (PyStr "p") logged_out) = Raise AttributeError.
Proof. reflexivity. Qed.

(** ** The poll *)

Lemma update_is_digest (net : Network) (h h1 : Hass) (summ sess : pyval) :
  _fetch net h = (Ok (summ, sess), h1) ->
  _async_update_data net h = digest summ sess h1.
Proof.
  intros H. unfold _async_update_data. now rewrite (bind_ok _ _ _ _ _ H).
Qed.

Lemma get_or_empty (v : pyval) (k : string) (x : pyval) :
  py_get (py_or v (PyDict [])) k = Ok x ->
  x = match v with
      | PyDict kv => match dict_get kv k with Some y => y | None => PyNone end
      | _ => PyNone
      end.
Proof.
  unfold py_or. destruct (truthy v) eqn:T; destruct v; cbn; intros E;
    try discriminate E; try (now inversion E).
  destruct kv; [now inversion E | discriminate T].
Qed.

Lemma nested_field_sound (resp : pyval) (field : string) (x : pyval) :
  nested_field resp field = Ok x -> x = response_field resp field.
Proof.
  unfold nested_field, rbind.
  destruct (py_get (py_or resp (PyDict [])) "data") as [d |] eqn:E1; [| discriminate].
  intros E2. apply get_or_empty in E1. apply get_or_empty in E2.
  subst. unfold response_field.
  destruct resp; try reflexivity.
  destruct (dict_get kv "data") as [d |]; [| reflexivity].
  now destruct d.
Qed.

Lemma nested_field_graphql (resp : pyval) (field : string) :
  graphql_response resp ->
  nested_field resp field = Ok (response_field resp field).
Proof.
  intros (kv & -> & H).
  unfold nested_field, response_field, rbind, py_get, py_get_default.
  destruct kv as [| item kv']; [reflexivity |].
  set (b := item :: kv') in *.
  change (py_or (PyDict b) (PyDict [])) with (PyDict b). cbv iota.
  destruct (dict_get b "data") as [d |]; [| reflexivity].
  destruct d; try contradiction; try reflexivity.
  now destruct kv.
Qed.

Lemma lacks_field_graphql (resp : pyval) (field : string) :
  lacks_field resp field ->
  graphql_response resp /\ response_field resp field = PyNone.
Proof.
  intros (kv & -> & H). unfold graphql_response, response_field. split.
  - exists kv. split; [reflexivity |].
    destruct (dict_get kv "data") as [d |]; [| exact I]. now destruct d.
  - destruct (dict_get kv "data") as [d |]; [| reflexivity].
    destruct d; try reflexivity. now rewrite H.
Qed.

(** C7. The two reads of a poll came back, and the sessions response lacks
    the [smartBatterySessions] node. Then [_async_update_data] returns (the
    two responses), [self.sessions_node] is [None] afterwards, and the
    warning is the last record logged. *)
Theorem poll_without_sessions (net : Network) (h h1 : Hass) (summ sess : pyval) :
  _fetch net h = (Ok (summ, sess), h1) ->
  graphql_response summ ->
  lacks_field sess "smartBatterySessions" ->
  fst (_async_update_data net h)
    = Ok (PyDict [("summary", summ); ("sessions", sess)]) /\
  sessions_node (coordinator (snd (_async_update_data net h))) = PyNone /\
  logged (world (snd (_async_update_data net h)))
    = (logged (world h1) ++ [no_sessions_warning (device_id (coordinator h1))])%list.
Proof.
  intros Hf Hs Hl.
  rewrite (update_is_digest net h h1 summ sess Hf).
  destruct (lacks_field_graphql sess _ Hl) as (Hg & Hnone).
  unfold digest, bind, lift.
  rewrite (nested_field_graphql summ _ Hs), (nested_field_graphql sess _ Hg), Hnone.
  cbn. repeat split.
Qed.

Lemma poll_without_sessions_witness :
  fst (_async_update_data (serving summary_body empty_data_body) battery)
    = Ok (PyDict [("summary", summary_body); ("sessions", empty_data_body)]) /\
  sessions_node (coordinator
    (snd (_async_update_data (serving summary_body empty_data_body) battery))) = PyNone.
Proof.
  pose proof (poll_without_sessions (serving summary_body empty_data_body) battery
                (snd (_fetch (serving summary_body empty_data_body) battery))
                summary_body empty_data_body) as H.
  assert (Hf : _fetch (serving summary_body empty_data_body) battery
               = (Ok (summary_body, empty_data_body),
                  snd (_fetch (serving summary_body empty_data_body) battery))).
  { vm_compute. reflexivity. }
  assert (Hs : graphql_response summary_body).
  { eexists. split; [reflexivity | exact I]. }
  assert (Hl : lacks_field empty_data_body "smartBatterySessions").
  { eexists. split; [reflexivity | reflexivity]. }
  destruct (H Hf Hs Hl) as (H1 & H2 & _).
  split; [exact H1 | exact H2].
Defined.

Lemma fetch_ignores_summary (net : Network) (h : Hass) (old : pyval) :
  _fetch net (set_summary old h)
    = (fst (_fetch net h), set_summary old (snd (_fetch net h))).
Proof.
  unfold _fetch, bind, gets, on_client, lift. cbn.
  destruct (get_smart_battery_summary net (device_id (coordinator h)) (world h))
    as [[summ | e] w1]; cbn; [| reflexivity].
  destruct (minus_days (utcnow w1) 7) as [start | e]; cbn; [| reflexivity].
  destruct (get_smart_battery_sessions net (device_id (coordinator h)) start
              (utcnow w1) w1) as [[sess | e] w2]; reflexivity.
Qed.

Lemma digest_overwrites (summ sess s old : pyval) (h1 : Hass) :
  nested_field summ "smartBatterySummary" = Ok s ->
  digest summ sess (set_summary old h1) = digest summ sess h1.
Proof.
  intros H. unfold digest, bind, lift, modify. rewrite H. reflexivity.
Qed.

Lemma digest_summary (summ sess s : pyval) (h1 : Hass) :
  nested_field summ "smartBatterySummary" = Ok s ->
  summary (coordinator (snd (digest summ sess h1))) = s.
Proof.
  intros H. unfold digest, bind, lift, modify, log, gets, ret. rewrite H.
  destruct (nested_field sess "smartBatterySessions") as [node |]; [| reflexivity].
  destruct (negb (truthy node)); [reflexivity |].
  destruct (is_dict node).
  - destruct (rbind (py_get node "sessions") _); [| reflexivity].
    destruct (py_get node "periodTradingResult"); reflexivity.
  - destruct (py_get node "periodTradingResult"); reflexivity.
Qed.

Lemma digest_returns (summ sess : pyval) (h1 : Hass) :
  graphql_response summ -> sessions_response sess ->
  fst (digest summ sess h1) = Ok (PyDict [("summary", summ); ("sessions", sess)]).
Proof.
  intros Hs (Hg & Hnode).
  unfold digest, bind, lift, modify, log, gets, ret.
  rewrite (nested_field_graphql summ _ Hs), (nested_field_graphql sess _ Hg).
  destruct (response_field sess "smartBatterySessions") as [| | | | | |d];
    try (rewrite Hnode; reflexivity).
  destruct d; reflexivity.
Qed.



(** ** The trading result *)

Lemma last_map_dict (ss : list (list (string * pyval))) s :
  last (map PyDict ss) (PyDict s) = PyDict (last ss s).
Proof.
  revert s. induction ss as [| x ss IH]; intros s; [reflexivity |].
  destruct ss as [| y ss]; [reflexivity |].
  change (last (map PyDict (y :: ss)) (PyDict s) = PyDict (last (y :: ss) s)).
  apply IH.
Qed.

(** C2. For every session window the coordinator holds, the state of the
    trading result sensor is the current trading result of the
    specification. A poll whose sessions response has the sessions of
    2024-01-01 (cumulative 10) and 2024-01-02 (cumulative 15) gives 15 when
    the aggregate is null, and 42 when the aggregate is 42. *)
Theorem trading_result_derived :
  (forall (dev summ : pyval) (sw : SessionWindow),
     trading_result_state (mkCoordinator dev summ (cached sw))
       = Ok (current_trading_result sw)) /\
  trading_result_state (coordinator
    (snd (_async_update_data (serving summary_body (two_sessions_body PyNone)) battery)))
    = Ok (PyInt 15) /\
  trading_result_state (coordinator
    (snd (_async_update_data (serving summary_body (two_sessions_body (PyInt 42))) battery)))
    = Ok (PyInt 42).
Proof.
  split; [| split; reflexivity].
  intros dev summ [p ss].
  unfold trading_result_state, current_trading_result, cached. cbn.
  destruct p; cbn; try reflexivity.
  destruct ss as [| s rest]; cbn; [reflexivity |].
  now rewrite last_map_dict.
Qed.

(** The windows the sensor reads are the ones a poll stores: from a node
    with a list of session objects, [_async_update_data] stores the window
    of the node. *)
Lemma digest_caches (summ sess : pyval) (h1 : Hass) item nd ss :
  graphql_response summ -> graphql_response sess ->
  response_field sess "smartBatterySessions" = PyDict (item :: nd) ->
  dict_get (item :: nd) "sessions" = Some (PyList (map PyDict ss)) ->
  sessions_node (coordinator (snd (digest summ sess h1)))
    = cached (mkWindow
        (match dict_get (item :: nd) "periodTradingResult" with
         | Some p => p
         | None => PyNone
         end) ss).
Proof.
  intros Hs Hg Hnode Hss.
  unfold digest, bind, lift, modify, log, gets, ret.
  rewrite (nested_field_graphql summ _ Hs), (nested_field_graphql sess _ Hg), Hnode.
  set (d := item :: nd) in *.
  change (truthy (PyDict d)) with true. cbv iota.
  unfold is_dict, py_get, py_get_default, rbind. rewrite Hss.
  unfold cached. cbn. now destruct ss.
Qed.

(** ** Dates on the wire *)

Lemma digit_value_digit (k : Z) :
  0 <= k <= 9 -> digit_value (digit k) = Some k.
Proof.
  intros H.
  assert (E : k = 0 \/ k = 1 \/ k = 2 \/ k = 3 \/ k = 4 \/
              k = 5 \/ k = 6 \/ k = 7 \/ k = 8 \/ k = 9) by lia.
  repeat (destruct E as [-> | E]; [reflexivity |]). now subst.
Qed.

Lemma last_digit (n : Z) : digit_value (digit (n mod 10)) = Some (n mod 10).
Proof.
  apply digit_value_digit. pose proof (Z.mod_pos_bound n 10). lia.
Qed.

Lemma read_two (n : Z) :
  0 <= n <= 99 ->
  number_of 0 (list_ascii_of_string (zero_filled 2 n)) = Some n.
Proof.
  intros H. cbn [zero_filled String.append list_ascii_of_string number_of].
  rewrite !last_digit.
  f_equal. Z.div_mod_to_equations. lia.
Qed.

Lemma read_four (n : Z) :
  0 <= n <= 9999 ->
  number_of 0 (list_ascii_of_string (zero_filled 4 n)) = Some n.
Proof.
  intros H. cbn [zero_filled String.append list_ascii_of_string number_of].
  rewrite !last_digit.
  f_equal. Z.div_mod_to_equations. lia.
Qed.

Lemma decimal_four (y : Z) :
  1000 <= y <= 9999 -> decimal y = zero_filled 4 y.
Proof.
  intros H. unfold decimal.
  assert (Hlog : 9 <= Z.log2 y).
  { change 9 with (Z.log2 512). apply Z.log2_le_mono. lia. }
  destruct (Z.to_nat (Z.log2 y)) as [| [| [| k]]] eqn:E; try lia.
  cbn [decimal_digits zero_filled].
  replace (y <? 10) with false by (symmetry; apply Z.ltb_ge; lia).
  replace (y / 10 <? 10) with false
    by (symmetry; apply Z.ltb_ge; Z.div_mod_to_equations; lia).
  replace (y / 10 / 10 <? 10) with false
    by (symmetry; apply Z.ltb_ge; Z.div_mod_to_equations; lia).
  replace (y / 10 / 10 / 10 <? 10) with true
    by (symmetry; apply Z.ltb_lt; Z.div_mod_to_equations; lia).
  reflexivity.
Qed.

Lemma read_strftime (d : datetime) :
  valid_date d -> 1000 <= year d ->
  read_Ymd (strftime_Ymd d) = Some (year d, month d, day d).
Proof.
  intros (Hy & Hm & Hd) Hlate.
  assert (Hd' : 0 <= day d <= 99).
  { assert (days_in_month (year d) (month d) <= 31).
    { unfold days_in_month.
      destruct (month d =? 2); [destruct (is_leap (year d)); lia |].
      destruct ((month d =? 4) || (month d =? 6) || (month d =? 9) || (month d =? 11));
        lia. }
    lia. }
  pose proof (read_four (year d)) as H4.
  pose proof (read_two (month d)) as H2m.
  pose proof (read_two (day d)) as H2d.
  unfold strftime_Ymd, read_Ymd. rewrite decimal_four by lia.
  cbn [zero_filled String.append list_ascii_of_string] in *.
  cbn [Ascii.eqb Bool.eqb andb].
  rewrite H4, H2m, H2d by lia. reflexivity.
Qed.

Lemma sessions_window_sent (net : Network) (w : World) h (dev : pyval)
    (start_date end_date : datetime) :
  truthy (auth w) = true -> _headers w = (Ok h, w) ->
  sends_window net w h dev start_date end_date
    (strftime_Ymd start_date) (strftime_Ymd end_date).
Proof.
  intros Ht Hh. exists (sessions_payload dev start_date end_date).
  split; [| split; reflexivity].
  unfold get_smart_battery_sessions.
  rewrite (bind_ok _ _ _ _ _ (require_auth_some w Ht)).
  now apply query_frame.
Qed.

(** C10, as the code has it. With a credential held,
    [get_smart_battery_sessions] sends one request, and for dates from the
    year 1000 on its [startDate] and [endDate] are the two dates in the form
    YYYY-MM-DD: read back as such, they give the year, the month and the
    day. The date 2024-03-05 goes out as the string "2024-03-05". *)
Theorem sessions_dates_serialized (net : Network) (w : World) h (dev : pyval)
    (start_date end_date : datetime) :
  truthy (auth w) = true -> _headers w = (Ok h, w) ->
  (valid_date start_date -> valid_date end_date ->
   1000 <= year start_date -> 1000 <= year end_date ->
   sends_iso_dates net w h dev start_date end_date) /\
  (forall t, sends_window net w h dev (mkDate 2024 3 5 t) end_date
               "2024-03-05" (strftime_Ymd end_date)).
Proof.
  intros Ht Hh. split.
  - intros Hs He Ls Le.
    exists (strftime_Ymd start_date), (strftime_Ymd end_date).
    split; [now apply sessions_window_sent |].
    split; now apply read_strftime.
  - intros t.
    apply (sessions_window_sent net w h dev (mkDate 2024 3 5 t) end_date Ht Hh).
Qed.

Lemma sessions_dates_serialized_witness :
  sends_iso_dates (always (mkResponse 200 (Some empty_data_body))) logged_in
    (bearer_headers (PyStr "T")) (PyStr "dev-1") (mkDate 2024 2 27 43200) noon /\
  sends_window (always (mkResponse 200 (Some empty_data_body))) logged_in
    (bearer_headers (PyStr "T")) (PyStr "dev-1") (mkDate 2024 3 5 0) noon
    "2024-03-05" "2024-03-05".
Proof.
  pose proof (sessions_dates_serialized
                (always (mkResponse 200 (Some empty_data_body))) logged_in
                (bearer_headers (PyStr "T")) (PyStr "dev-1")
                (mkDate 2024 2 27 43200) noon eq_refl eq_refl) as (H1 & _).
  pose proof (sessions_dates_serialized
                (always (mkResponse 200 (Some empty_data_body))) logged_in
                (bearer_headers (PyStr "T")) (PyStr "dev-1")
                (mkDate 2024 3 5 0) noon eq_refl eq_refl) as (_ & H2).
  split; [| exact (H2 0)].
  apply H1; unfold valid_date; cbn; lia.
Defined.

(** C10, as the spec has it, fails: the year is not zero-filled, and the
    fifth of March of the year 5 goes out as "5-03-05", which is not of the
    form YYYY-MM-DD. *)
Lemma early_year_not_iso :
  ~ (forall (net : Network) (w : World) h (dev : pyval)
       (start_date end_date : datetime),
       truthy (auth w) = true -> _headers w = (Ok h, w) ->
       valid_date start_date -> valid_date end_date ->
       sends_iso_dates net w h dev start_date end_date).
Proof.
  intros H.
  destruct (H (always (mkResponse 200 (Some empty_data_body))) logged_in
              (bearer_headers (PyStr "T")) (PyStr "dev-1") early noon
              eq_refl eq_refl) as (a & b & (payload & Hs & Ha & _) & Hr & _).
  - unfold valid_date, early. cbn. lia.
  - unfold valid_date, noon. cbn. lia.
  - vm_compute in Hs. inversion Hs; subst payload.
    vm_compute in Ha. inversion Ha; subst a.
    vm_compute in Hr. discriminate Hr.
Qed.

(** * Further properties of the client *)

Lemma headers_pure (w : World) : snd (_headers w) = w.
Proof.
  unfold _headers, bind, gets, lift, ret.
  destruct (truthy (auth w)); [| reflexivity].
  destruct (auth_token_of (auth w)); reflexivity.
Qed.

Lemma headers_cases (w : World) :
  (exists h, _headers w = (Ok h, w)) \/ (exists e, _headers w = (Raise e, w)).
Proof.
  pose proof (headers_pure w) as H.
  destruct (_headers w) as [[h | e] w']; cbn in H; subst; eauto.
Qed.

Lemma query_without_headers (net : Network) (payload : pyval) (w : World) e :
  _headers w = (Raise e, w) -> query net payload w = (Raise e, w).
Proof.
  intros H. unfold query. now rewrite (bind_raise _ _ _ _ _ H).
Qed.

Lemma query_keeps (net : Network) (payload : pyval) (w : World) :
  auth (snd (query net payload w)) = auth w /\
  utcnow (snd (query net payload w)) = utcnow w.
Proof.
  destruct (headers_cases w) as [(h & H) | (e & H)].
  - rewrite (query_exchange net payload w h H).
    destruct (net (sent w) (mkRequest h payload)) as [| r]; [now split |].
    destruct (after_response_frame r (push_request (mkRequest h payload) w))
      as (_ & Ha & Hc).
    now rewrite Ha, Hc.
  - now rewrite (query_without_headers net payload w e H).
Qed.

Lemma guarded_keeps (c : M World pyval) (w : World) :
  auth (snd (c w)) = auth w /\ utcnow (snd (c w)) = utcnow w ->
  auth (snd ((require_auth ;;; c) w)) = auth w /\
  utcnow (snd ((require_auth ;;; c) w)) = utcnow w.
Proof.
  intros H. destruct (truthy (auth w)) eqn:T.
  - now rewrite (bind_ok _ _ _ _ _ (require_auth_some w T)).
  - now rewrite (bind_raise _ _ _ _ _ (require_auth_none w T)).
Qed.

(** X1. Neither [query] nor any of the four read operations touches
    [self.auth], whatever the far end answers and whether the call returns or
    raises: only [login] sets the credential. *)
Theorem reads_keep_credential (net : Network) (w : World) (payload dev : pyval)
    (start_date end_date : datetime) :
  auth (snd (query net payload w)) = auth w /\
  auth (snd (get_smart_batteries net w)) = auth w /\
  auth (snd (get_smart_battery_summary net dev w)) = auth w /\
  auth (snd (get_smart_battery net dev w)) = auth w /\
  auth (snd (get_smart_battery_sessions net dev start_date end_date w)) = auth w.
Proof.
  split; [apply query_keeps |].
  unfold get_smart_batteries, get_smart_battery_summary, get_smart_battery,
    get_smart_battery_sessions.
  repeat split; apply guarded_keeps; apply query_keeps.
Qed.

(** X2. A call of [query] puts exactly one request on the wire, with the
    headers of the moment and the body it was given, also when the call then
    fails (no response, error status, body that is not JSON, sentinel). When
    the headers cannot be built, it raises their exception and sends
    nothing. *)
Theorem query_sends_once (net : Network) (payload : pyval) (w : World) :
  (forall h, _headers w = (Ok h, w) ->
     sent (snd (query net payload w)) = (sent w ++ [mkRequest h payload])%list) /\
  (forall e, _headers w = (Raise e, w) ->
     query net payload w = (Raise e, w)).
Proof.
  split.
  - intros h H. now apply query_frame.
  - intros e H. now apply query_without_headers.
Qed.

Lemma query_sends_once_witness :
  sent (snd (query (always (mkResponse 500 None)) (PyDict []) logged_in))
    = [mkRequest (bearer_headers (PyStr "T")) (PyDict [])] /\
  query (always (mkResponse 500 None)) (PyDict [])
        (set_auth (PyStr "T") logged_in)
    = (Raise AttributeError, set_auth (PyStr "T") logged_in).
Proof.
  pose proof (query_sends_once (always (mkResponse 500 None)) (PyDict []) logged_in)
    as H1.
  pose proof (query_sends_once (always (mkResponse 500 None)) (PyDict [])
                (set_auth (PyStr "T") logged_in)) as H2.
  split.
  - exact (proj1 H1 (bearer_headers (PyStr "T")) eq_refl).
  - exact (proj2 H2 AttributeError eq_refl).
Defined.

(** X3. [is_authenticated] and [_headers] agree: the one answers [True]
    exactly when the other puts an [Authorization] header, and when the
    credential is not an object both raise the same exception. *)
Theorem is_authenticated_matches_headers (w : World) :
  match fst (is_authenticated w), fst (_headers w) with
  | Ok b, Ok h => existsb (fun p => String.eqb (fst p) "Authorization") h = b
  | Raise e, Raise e' => e = e'
  | _, _ => False
  end.
Proof.
  unfold is_authenticated, _headers, bind, gets, lift, ret.
  destruct (truthy (auth w)); [| reflexivity].
  destruct (auth_token_of (auth w)) as [t |]; [| reflexivity].
  cbn. destruct (truthy t); reflexivity.
Qed.

(** X4. The token of the [Authorization] header is the [authToken] of the
    credential when that one is truthy; else it is its [auth_token], the
    older spelling of the key. *)
Theorem bearer_token_choice (w : World) kv (t : pyval) :
  auth w = PyDict kv -> truthy t = true ->
  (dict_get kv "authToken" = Some t ->
   _headers w = (Ok (bearer_headers t), w)) /\
  (truthy (member kv "authToken") = false ->
   dict_get kv "auth_token" = Some t ->
   _headers w = (Ok (bearer_headers t), w)).
Proof.
  intros Ha Ht.
  unfold _headers, bind, gets, lift, ret, auth_token_of, py_get, py_get_default,
    rbind, member.
  rewrite Ha. split.
  - intros Hk. destruct kv as [| item kv']; [discriminate Hk |].
    cbn [truthy]. rewrite Hk, Ht. cbn. now rewrite Ht.
  - intros Hc Hs. destruct kv as [| item kv']; [discriminate Hs |].
    cbn [truthy]. rewrite Hc, Hs. cbn. now rewrite Ht.
Qed.

Lemma bearer_token_choice_witness :
  _headers (set_auth (PyDict [("auth_token", PyStr "old")]) logged_out)
    = (Ok (bearer_headers (PyStr "old")),
       set_auth (PyDict [("auth_token", PyStr "old")]) logged_out).
Proof.
  exact (proj2 (bearer_token_choice
                  (set_auth (PyDict [("auth_token", PyStr "old")]) logged_out)
                  [("auth_token", PyStr "old")] (PyStr "old") eq_refl eq_refl)
           eq_refl eq_refl).
Defined.

Lemma read_sends_one (net : Network) (w : World) h (payload : pyval) op dev :
  truthy (auth w) = true -> _headers w = (Ok h, w) ->
  operation_name payload = Some (PyStr op) ->
  query_variable payload "deviceId" = dev ->
  sends_one (require_auth ;;; query net payload) w h op dev.
Proof.
  intros Ht Hh Hop Hdev. exists payload.
  rewrite (bind_ok _ _ _ _ _ (require_auth_some w Ht)).
  split; [now apply query_frame | now split].
Qed.

(** X5. With a credential held, each read operation sends exactly one
    request, with the headers of the moment: it names its own operation and
    carries the device identifier it was given ([get_smart_batteries]
    carries none). *)
Theorem reads_send_one_request (net : Network) (w : World) h (dev : pyval)
    (start_date end_date : datetime) :
  truthy (auth w) = true -> _headers w = (Ok h, w) ->
  sends_one (get_smart_batteries net) w h "SmartBatteries" None /\
  sends_one (get_smart_battery_summary net dev) w h "SmartBatterySummary" (Some dev) /\
  sends_one (get_smart_battery net dev) w h "SmartBattery" (Some dev) /\
  sends_one (get_smart_battery_sessions net dev start_date end_date) w h
    "SmartBatterySessions" (Some dev).
Proof.
  intros Ht Hh.
  unfold get_smart_batteries, get_smart_battery_summary, get_smart_battery,
    get_smart_battery_sessions.
  repeat split; now apply read_sends_one.
Qed.

Lemma reads_send_one_request_witness :
  sends_one (get_smart_battery_summary (always (mkResponse 200 (Some summary_body)))
               (PyStr "dev-1"))
    logged_in (bearer_headers (PyStr "T")) "SmartBatterySummary" (Some (PyStr "dev-1")).
Proof.
  exact (proj1 (proj2 (reads_send_one_request
                         (always (mkResponse 200 (Some summary_body))) logged_in
                         (bearer_headers (PyStr "T")) (PyStr "dev-1") noon noon
                         eq_refl eq_refl))).
Defined.

Lemma after_response_clean (r : Response) (w : World) (b : pyval) :
  status_code r < 400 -> body r = Some b -> has_errors b = false ->
  after_response r w = (Ok b, w).
Proof.
  intros Hlt Hb He.
  unfold after_response, bind, lift, json_of.
  rewrite (raise_for_status_fine r Hlt), Hb.
  destruct b; try reflexivity.
  cbn in He. now rewrite He.
Qed.

(** X6. A response with a status below 400 (a 3xx as well as a 2xx) and a
    JSON body without an [errors] member is returned as it is, object or
    not, and nothing is logged. *)
Theorem query_returns_body (net : Network) (w : World) (payload : pyval)
    (r : Response) (b : pyval) :
  answers net w payload r ->
  status_code r < 400 -> body r = Some b -> has_errors b = false ->
  fst (query net payload w) = Ok b /\
  logged (snd (query net payload w)) = logged w.
Proof.
  intros (h & Hh & Hn) Hlt Hb He.
  rewrite (query_exchange net payload w h Hh), Hn.
  now rewrite (after_response_clean r _ b Hlt Hb He).
Qed.

Lemma query_returns_body_witness :
  fst (query (always (mkResponse 302 (Some (PyList [PyInt 1])))) (PyDict []) logged_in)
    = Ok (PyList [PyInt 1]).
Proof.
  apply (query_returns_body (always (mkResponse 302 (Some (PyList [PyInt 1]))))
           logged_in (PyDict []) (mkResponse 302 (Some (PyList [PyInt 1])))
           (PyList [PyInt 1])).
  - eexists. split; reflexivity.
  - simpl. lia.
  - reflexivity.
  - reflexivity.
Defined.

(** X7. GraphQL errors other than the sentinel do not fail the call: the
    body comes back whole, with its errors, and the one trace of them is a
    DEBUG record that carries the errors list. *)
Theorem graphql_errors_logged (net : Network) (w : World) (payload : pyval)
    (r : Response) kv es :
  answers net w payload r ->
  status_code r < 400 -> body r = Some (PyDict kv) ->
  dict_get kv "errors" = Some (PyList (map PyDict es)) ->
  Forall (fun e => message_of e <> PyStr sentinel) es ->
  fst (query net payload w) = Ok (PyDict kv) /\
  logged (snd (query net payload w))
    = (logged w ++ [errors_record (PyList (map PyDict es))])%list.
Proof.
  intros (h & Hh & Hn) Hlt Hb He Hall.
  rewrite (query_exchange net payload w h Hh), Hn.
  unfold after_response, bind, lift, json_of.
  rewrite (raise_for_status_fine r Hlt), Hb.
  unfold dict_has, py_get, py_get_default, py_item. rewrite He. cbn [rbind].
  assert (Hi : py_iter (py_or (PyList (map PyDict es)) (PyList []))
               = Ok (map PyDict es)) by now destruct es.
  rewrite Hi, (scan_without_sentinel es Hall). cbn. now split.
Qed.

Lemma graphql_errors_logged_witness :
  fst (query (always (mkResponse 200 (Some bad_creds_body))) (PyDict []) logged_in)
    = Ok bad_creds_body /\
  logged (snd (query (always (mkResponse 200 (Some bad_creds_body))) (PyDict [])
                 logged_in))
    = [errors_record (PyList [PyDict [("message", PyStr "bad creds")]])].
Proof.
  apply (graphql_errors_logged (always (mkResponse 200 (Some bad_creds_body)))
           logged_in (PyDict []) (mkResponse 200 (Some bad_creds_body))
           [("errors", PyList [PyDict [("message", PyStr "bad creds")]])]
           [[("message", PyStr "bad creds")]]).
  - eexists. split; reflexivity.
  - simpl. lia.
  - reflexivity.
  - reflexivity.
  - constructor; [discriminate | constructor].
Defined.

Lemma scan_meets_other (es : list (list (string * pyval))) (v : pyval) rest :
  Forall (fun e => message_of e <> PyStr sentinel) es ->
  is_dict v = false ->
  scan_errors (map PyDict es ++ v :: rest)%list = Raise AttributeError.
Proof.
  intros Hall Hv. induction Hall as [| x es Hx _ IH].
  - cbn. now destruct v.
  - cbn. fold (message_of x).
    destruct (eq_str (message_of x) sentinel) eqn:E; [| exact IH].
    exfalso. apply Hx. unfold eq_str in E.
    destruct (message_of x); try discriminate.
    apply String.eqb_eq in E. now subst.
Qed.

(** X8. The scan of the errors list reads the entries in order and expects
    objects: an entry that is not an object, met before any sentinel, ends
    the call in an [AttributeError], whatever follows it in the list (a
    sentinel too), and nothing is logged. *)
Theorem scan_stops_at_malformed_entry (net : Network) (w : World) (payload : pyval)
    (r : Response) kv es (v : pyval) rest :
  answers net w payload r ->
  status_code r < 400 -> body r = Some (PyDict kv) ->
  dict_get kv "errors" = Some (PyList (map PyDict es ++ v :: rest)) ->
  Forall (fun e => message_of e <> PyStr sentinel) es ->
  is_dict v = false ->
  fst (query net payload w) = Raise AttributeError /\
  logged (snd (query net payload w)) = logged w.
Proof.
  intros (h & Hh & Hn) Hlt Hb He Hall Hv.
  rewrite (query_exchange net payload w h Hh), Hn.
  unfold after_response, bind, lift, json_of.
  rewrite (raise_for_status_fine r Hlt), Hb.
  unfold dict_has, py_get, py_get_default. rewrite He. cbn [rbind].
  assert (Hi : py_iter (py_or (PyList (map PyDict es ++ v :: rest)) (PyList []))
               = Ok (map PyDict es ++ v :: rest)%list) by now destruct es.
  rewrite Hi, (scan_meets_other es v rest Hall Hv). now split.
Qed.

Lemma scan_stops_at_malformed_entry_witness :
  fst (query (always (mkResponse 200 (Some (PyDict [("errors",
         PyList [PyStr "oops"; PyDict [("message", PyStr sentinel)]])]))))
         (PyDict []) logged_in) = Raise AttributeError.
Proof.
  apply (scan_stops_at_malformed_entry
           (always (mkResponse 200 (Some (PyDict [("errors",
              PyList [PyStr "oops"; PyDict [("message", PyStr sentinel)]])]))))
           logged_in (PyDict [])
           (mkResponse 200 (Some (PyDict [("errors",
              PyList [PyStr "oops"; PyDict [("message", PyStr sentinel)]])])))
           [("errors", PyList [PyStr "oops"; PyDict [("message", PyStr sentinel)]])]
           [] (PyStr "oops") [PyDict [("message", PyStr sentinel)]]).
  - eexists. split; reflexivity.
  - simpl. lia.
  - reflexivity.
  - reflexivity.
  - constructor.
  - reflexivity.
Defined.

(** X9. Failures of the exchange are not swallowed: with no response the
    call raises the failure of [requests.post], and with a body that is not
    JSON behind a status below 400 it raises the decoding error; in both
    cases the request counts as sent. *)
Theorem exchange_failures_propagate (net : Network) (w : World) (payload : pyval) h :
  _headers w = (Ok h, w) ->
  (net (sent w) (mkRequest h payload) = NoResponse ->
   query net payload w = (Raise RequestFailed, push_request (mkRequest h payload) w)) /\
  (forall r, net (sent w) (mkRequest h payload) = Responds r ->
     status_code r < 400 -> body r = None ->
     query net payload w = (Raise JSONDecodeError, push_request (mkRequest h payload) w)).
Proof.
  intros Hh. rewrite (query_exchange net payload w h Hh). split.
  - now intros ->.
  - intros r -> Hlt Hb.
    unfold after_response, bind, lift, json_of.
    now rewrite (raise_for_status_fine r Hlt), Hb.
Qed.

Lemma exchange_failures_propagate_witness :
  query (fun _ _ => NoResponse) (PyDict []) logged_out
    = (Raise RequestFailed, push_request (mkRequest base_headers (PyDict [])) logged_out) /\
  query (always (mkResponse 200 None)) (PyDict []) logged_out
    = (Raise JSONDecodeError, push_request (mkRequest base_headers (PyDict [])) logged_out).
Proof.
  split.
  - exact (proj1 (exchange_failures_propagate (fun _ _ => NoResponse) logged_out
                    (PyDict []) base_headers eq_refl) eq_refl).
  - apply (proj2 (exchange_failures_propagate (always (mkResponse 200 None)) logged_out
                    (PyDict []) base_headers eq_refl) (mkResponse 200 None) eq_refl).
    + simpl. lia.
    + reflexivity.
Defined.

(** ** How [login] ends *)

Lemma truthy_member_item (d l : pyval) (k : string) :
  py_get d k = Ok l -> truthy l = true -> py_item d k = Ok l.
Proof.
  unfold py_get, py_get_default, py_item.
  destruct d; try discriminate.
  destruct (dict_get kv k) as [x |]; intros E Ht; inversion E; subst.
  - reflexivity.
  - discriminate Ht.
Qed.

Lemma payload_found (data : pyval) :
  no_login_payload data = Ok false ->
  exists d l, py_item data "data" = Ok d /\ py_item d "login" = Ok l /\
              truthy l = true.
Proof.
  unfold no_login_payload. intros N.
  destruct (negb (truthy data)); [discriminate N |].
  destruct (py_contains data "data") as [has |]; [| discriminate N].
  cbn in N. destruct has; [| discriminate N]. cbn in N.
  destruct (py_item data "data") as [d |]; [| discriminate N]. cbn in N.
  destruct (py_get d "login") as [l |] eqn:L; [| discriminate N]. cbn in N.
  assert (Ht : truthy l = true).
  { destruct (truthy l); [reflexivity | discriminate N]. }
  exists d, l. repeat split; [now apply truthy_member_item | exact Ht].
Qed.

Lemma login_cases (net : Network) (u p : pyval) (w : World) :
  (exists e, login net u p w = (Raise e, snd (query net (login_payload u p) w))) \/
  (exists l, login net u p w = (Ok l, set_auth l (snd (query net (login_payload u p) w)))
             /\ truthy l = true).
Proof.
  unfold login, bind.
  destruct (query net (login_payload u p) w) as [[data | e] w1]; cbn [snd];
    [| left; now exists e].
  unfold lift at 1.
  destruct (no_login_payload data) as [failed | e] eqn:N; [| left; now exists e].
  destruct failed.
  - left. unfold lift, ret, raise.
    destruct (truthy data) eqn:T.
    + destruct (py_get data "errors") as [errs | e]; [| now exists e].
      destruct (truthy errs); [| eexists; reflexivity].
      destruct (rbind (py_item data "errors") py_first) as [x | e]; [| now exists e].
      destruct (py_get_default x "message" (PyStr "Login failed")) as [m | e];
        [eexists; reflexivity | now exists e].
    + rewrite T. eexists; reflexivity.
  - right. destruct (payload_found data N) as (d & l & Hd & Hl & Ht).
    exists l. unfold lift, modify, gets. rewrite Hd, Hl. now split.
Qed.

(** X10. A call of [login] that raises, for whatever reason (no response,
    error status, body that is not JSON, sentinel, no login payload,
    malformed body), leaves [self.auth] as it was. *)
Theorem login_atomic (net : Network) (u p : pyval) (w : World) (e : exn) :
  fst (login net u p w) = Raise e ->
  auth (snd (login net u p w)) = auth w.
Proof.
  intros H.
  destruct (login_cases net u p w) as [(e' & E) | (l & E & _)]; rewrite E in *.
  - apply query_keeps.
  - discriminate H.
Qed.

Lemma login_atomic_witness :
  auth (snd (login (always (mkResponse 503 None)) (PyStr "u") (PyStr "p") logged_in))
    = credential "T" "R".
Proof.
  exact (login_atomic (always (mkResponse 503 None)) (PyStr "u") (PyStr "p")
           logged_in (HTTPError 503) eq_refl).
Defined.

(** X11. What [login] returns is never falsy, and it is the new value of
    [self.auth]: the test [if not auth] that follows the login in
    [async_setup_entry] never stops the setup. *)
Theorem login_returns_credential (net : Network) (u p : pyval) (w : World) (v : pyval) :
  fst (login net u p w) = Ok v ->
  truthy v = true /\ auth (snd (login net u p w)) = v.
Proof.
  intros H.
  destruct (login_cases net u p w) as [(e' & E) | (l & E & Ht)]; rewrite E in *.
  - discriminate H.
  - cbn in H. inversion H; subst. now split.
Qed.

Lemma login_returns_credential_witness :
  truthy (PyStr "opaque") = true /\
  auth (snd (login (always (mkResponse 200
                      (Some (PyDict [("data", PyDict [("login", PyStr "opaque")])]))))
              (PyStr "u") (PyStr "p") logged_out)) = PyStr "opaque".
Proof.
  exact (login_returns_credential
           (always (mkResponse 200
              (Some (PyDict [("data", PyDict [("login", PyStr "opaque")])]))))
           (PyStr "u") (PyStr "p") logged_out (PyStr "opaque") eq_refl).
Defined.

(** X12. [login] stores the login payload as it comes: when [self.auth] is
    truthy without being an object (a string, say), [is_authenticated] and
    the four read operations all end in an [AttributeError], and nothing is
    sent. *)
Theorem opaque_credential_blocks (net : Network) (w : World) (dev : pyval)
    (start_date end_date : datetime) :
  truthy (auth w) = true -> is_dict (auth w) = false ->
  fst (is_authenticated w) = Raise AttributeError /\
  get_smart_batteries net w = (Raise AttributeError, w) /\
  get_smart_battery_summary net dev w = (Raise AttributeError, w) /\
  get_smart_battery net dev w = (Raise AttributeError, w) /\
  get_smart_battery_sessions net dev start_date end_date w = (Raise AttributeError, w).
Proof.
  intros Ht Hd.
  assert (Hg : auth_token_of (auth w) = Raise AttributeError).
  { unfold auth_token_of, py_get, py_get_default.
    destruct (auth w); try reflexivity; discriminate Hd. }
  assert (Hh : _headers w = (Raise AttributeError, w)).
  { unfold _headers, bind, gets, lift. now rewrite Ht, Hg. }
  split.
  { unfold is_authenticated, bind, gets, lift. now rewrite Ht, Hg. }
  unfold get_smart_batteries, get_smart_battery_summary, get_smart_battery,
    get_smart_battery_sessions.
  repeat split; rewrite (bind_ok _ _ _ _ _ (require_auth_some w Ht));
    now apply query_without_headers.
Qed.

Lemma opaque_credential_blocks_witness :
  get_smart_batteries (always (mkResponse 200 (Some (PyDict []))))
    (set_auth (PyStr "opaque") logged_out)
    = (Raise AttributeError, set_auth (PyStr "opaque") logged_out).
Proof.
  exact (proj1 (proj2 (opaque_credential_blocks
                         (always (mkResponse 200 (Some (PyDict []))))
                         (set_auth (PyStr "opaque") logged_out) PyNone noon noon
                         eq_refl eq_refl))).
Defined.

Lemma headers_of_token (w : World) kv (t : pyval) :
  auth w = PyDict kv -> dict_get kv "authToken" = Some t -> truthy t = true ->
  _headers w = (Ok (bearer_headers t), w).
Proof.
  intros Ha Hk Ht.
  unfold _headers, bind, gets, lift, ret, auth_token_of, py_get, py_get_default, rbind.
  rewrite Ha. destruct kv as [| item kv']; [discriminate Hk |].
  cbn [truthy]. rewrite Hk, Ht. cbn. now rewrite Ht.
Qed.

(** X13. Login, then read: when [login] returns an object with a truthy
    [authToken], the next read operation sends its request with
    [Authorization: Bearer <that token>]. *)
Theorem login_then_read (net : Network) (u p : pyval) (w : World) kv (t : pyval) :
  fst (login net u p w) = Ok (PyDict kv) ->
  dict_get kv "authToken" = Some t -> truthy t = true ->
  sends_one (get_smart_batteries net) (snd (login net u p w))
    (bearer_headers t) "SmartBatteries" None.
Proof.
  intros Hl Hk Ht.
  assert (Ha : auth (snd (login net u p w)) = PyDict kv).
  { destruct (login_cases net u p w) as [(e' & E) | (l & E & _)]; rewrite E in *.
    - discriminate Hl.
    - cbn in Hl. inversion Hl; subst. reflexivity. }
  unfold get_smart_batteries. apply read_sends_one.
  - rewrite Ha. now destruct kv.
  - now apply (headers_of_token _ kv t).
  - reflexivity.
  - reflexivity.
Qed.

Lemma login_then_read_witness :
  sends_one (get_smart_batteries (always (mkResponse 200 (Some (login_body "T" "R")))))
    (snd (login (always (mkResponse 200 (Some (login_body "T" "R"))))
            (PyStr "u") (PyStr "p") logged_out))
    (bearer_headers (PyStr "T")) "SmartBatteries" None.
Proof.
  exact (login_then_read (always (mkResponse 200 (Some (login_body "T" "R"))))
           (PyStr "u") (PyStr "p") logged_out
           [("authToken", PyStr "T"); ("refreshToken", PyStr "R")] (PyStr "T")
           eq_refl eq_refl eq_refl).
Defined.

(** * Further properties of the coordinator *)

Lemma fetch_keeps_coordinator (net : Network) (h : Hass) :
  coordinator (snd (_fetch net h)) = coordinator h.
Proof.
  unfold _fetch, bind, gets, on_client, lift. cbn.
  destruct (get_smart_battery_summary net (device_id (coordinator h)) (world h))
    as [[summ | e] w1]; cbn; [| reflexivity].
  destruct (minus_days (utcnow w1) 7) as [start | e]; cbn; [| reflexivity].
  destruct (get_smart_battery_sessions net (device_id (coordinator h)) start
              (utcnow w1) w1) as [[sess | e] w2]; reflexivity.
Qed.

(** X14. A poll whose reads fail (one of the two calls of the client raises,
    or the window cannot be computed) raises the same exception, and the
    coordinator keeps what it held: [summary] and [sessions_node] are those
    of the last poll that got through. When it is the summary read that
    fails, the sessions query is not sent. *)
Theorem failed_fetch_keeps_snapshot (net : Network) (h : Hass) (e : exn) :
  (fst (_fetch net h) = Raise e ->
   fst (_async_update_data net h) = Raise e /\
   coordinator (snd (_async_update_data net h)) = coordinator h) /\
  (fst (get_smart_battery_summary net (device_id (coordinator h)) (world h)) = Raise e ->
   _fetch net h
     = (Raise e,
        mkHass (snd (get_smart_battery_summary net (device_id (coordinator h)) (world h)))
          (coordinator h))).
Proof.
  split.
  - intros H. pose proof (fetch_keeps_coordinator net h) as Hc.
    unfold _async_update_data, bind.
    destruct (_fetch net h) as [[x | e'] h1]; cbn [fst snd] in *;
      [discriminate H |].
    inversion H; subst. split; [reflexivity | exact Hc].
  - intros H. unfold _fetch, bind, gets, on_client, lift. cbn.
    destruct (get_smart_battery_summary net (device_id (coordinator h)) (world h))
      as [[summ | e'] w1]; cbn in *; [discriminate H |].
    now inversion H.
Qed.

Lemma failed_fetch_keeps_snapshot_witness :
  fst (_async_update_data (always (mkResponse 500 None)) battery)
    = Raise (HTTPError 500) /\
  coordinator (snd (_async_update_data (always (mkResponse 500 None)) battery))
    = coordinator battery /\
  List.length (sent (world (snd (_fetch (always (mkResponse 500 None)) battery)))) = 1%nat.
Proof.
  pose proof (failed_fetch_keeps_snapshot (always (mkResponse 500 None)) battery
                (HTTPError 500)) as (H1 & H2).
  destruct (H1 eq_refl) as (Ha & Hb).
  split; [exact Ha |]. split; [exact Hb |].
  rewrite (H2 eq_refl). reflexivity.
Defined.

Lemma headers_follow_auth (w w' : World) h :
  auth w' = auth w -> _headers w = (Ok h, w) -> _headers w' = (Ok h, w').
Proof.
  unfold _headers, bind, gets, lift, ret. intros ->.
  destruct (truthy (auth w)).
  - destruct (auth_token_of (auth w)); intros E; inversion E; reflexivity.
  - intros E; inversion E; reflexivity.
Qed.

Lemma read_frame (net : Network) (payload : pyval) (w : World) h :
  truthy (auth w) = true -> _headers w = (Ok h, w) ->
  sent (snd ((require_auth ;;; query net payload) w))
    = (sent w ++ [mkRequest h payload])%list /\
  auth (snd ((require_auth ;;; query net payload) w)) = auth w /\
  utcnow (snd ((require_auth ;;; query net payload) w)) = utcnow w.
Proof.
  intros Ht Hh. rewrite (bind_ok _ _ _ _ _ (require_auth_some w Ht)).
  split; [now apply query_frame | apply query_keeps].
Qed.

(** X15. With a credential held, a poll whose summary read returns sends
    exactly two requests, in this order and with the same headers: the
    summary query for the device of the coordinator, then the sessions query
    for the same device, from seven days before the clock's date to the
    clock's date. *)
Theorem poll_sends_two_requests (net : Network) (h : Hass) hd (summ : pyval)
    (start : datetime) :
  truthy (auth (world h)) = true ->
  _headers (world h) = (Ok hd, world h) ->
  fst (get_smart_battery_summary net (device_id (coordinator h)) (world h)) = Ok summ ->
  minus_days (utcnow (world h)) 7 = Ok start ->
  sent (world (snd (_fetch net h)))
    = (sent (world h) ++
       [mkRequest hd (summary_payload (device_id (coordinator h)));
        mkRequest hd (sessions_payload (device_id (coordinator h)) start
                        (utcnow (world h)))])%list.
Proof.
  intros Ht Hh Hs Hm.
  pose proof (read_frame net (summary_payload (device_id (coordinator h))) (world h) hd
                Ht Hh) as F.
  change ((require_auth ;;; query net (summary_payload (device_id (coordinator h))))
            (world h))
    with (get_smart_battery_summary net (device_id (coordinator h)) (world h)) in F.
  unfold _fetch, bind, gets, on_client, lift. cbn [world coordinator fst snd].
  destruct (get_smart_battery_summary net (device_id (coordinator h)) (world h))
    as [[s | e] w1]; cbn [fst snd] in *; [| discriminate Hs].
  destruct F as (H1 & H2 & H3).
  cbn. rewrite H3, Hm. cbn.
  assert (Ht1 : truthy (auth w1) = true) by now rewrite H2.
  assert (Hh1 : _headers w1 = (Ok hd, w1))
    by now apply (headers_follow_auth (world h)).
  pose proof (read_frame net (sessions_payload (device_id (coordinator h)) start
                                (utcnow (world h))) w1 hd Ht1 Hh1) as G.
  change ((require_auth ;;; query net (sessions_payload (device_id (coordinator h)) start
                                         (utcnow (world h)))) w1)
    with (get_smart_battery_sessions net (device_id (coordinator h)) start
            (utcnow (world h)) w1) in G.
  destruct G as (G1 & _ & _).
  destruct (get_smart_battery_sessions net (device_id (coordinator h)) start
              (utcnow (world h)) w1) as [[x | e] w2]; cbn in *;
    rewrite G1, H1, <- app_assoc; reflexivity.
Qed.

Lemma poll_sends_two_requests_witness :
  sent (world (snd (_fetch (serving summary_body empty_data_body) battery)))
    = [mkRequest (bearer_headers (PyStr "T")) (summary_payload (PyStr "dev-1"));
       mkRequest (bearer_headers (PyStr "T"))
         (sessions_payload (PyStr "dev-1") (mkDate 2024 2 27 43200) noon)].
Proof.
  exact (poll_sends_two_requests (serving summary_body empty_data_body) battery
           (bearer_headers (PyStr "T")) summary_body (mkDate 2024 2 27 43200)
           eq_refl eq_refl eq_refl eq_refl).
Defined.

Lemma fetched_coordinator (net : Network) (h h1 : Hass) (x : pyval * pyval) :
  _fetch net h = (Ok x, h1) -> coordinator h1 = coordinator h.
Proof.
  intros H. rewrite <- (fetch_keeps_coordinator net h). now rewrite H.
Qed.

(** X16. A poll can end half done. When the [smartBatterySessions] node is
    neither empty nor an object (a string, a number, a list), the poll ends
    in an [AttributeError]: by then [summary] holds the node of this poll,
    while [sessions_node] still holds the window of an earlier one. *)
Theorem torn_update (net : Network) (h h1 : Hass) (summ sess : pyval) :
  _fetch net h = (Ok (summ, sess), h1) ->
  graphql_response summ -> graphql_response sess ->
  truthy (response_field sess "smartBatterySessions") = true ->
  is_dict (response_field sess "smartBatterySessions") = false ->
  fst (_async_update_data net h) = Raise AttributeError /\
  summary (coordinator (snd (_async_update_data net h)))
    = response_field summ "smartBatterySummary" /\
  sessions_node (coordinator (snd (_async_update_data net h)))
    = sessions_node (coordinator h).
Proof.
  intros Hf Hs Hg Ht Hd.
  rewrite (update_is_digest net h h1 summ sess Hf).
  rewrite <- (fetched_coordinator net h h1 _ Hf).
  unfold digest, bind, lift, modify.
  rewrite (nested_field_graphql summ _ Hs), (nested_field_graphql sess _ Hg).
  rewrite Ht, Hd. cbn.
  unfold py_get, py_get_default.
  destruct (response_field sess "smartBatterySessions"); try discriminate Hd;
    now repeat split.
Qed.

Lemma torn_update_witness :
  fst (_async_update_data (serving summary_body (sessions_body (PyStr "later"))) battery)
    = Raise AttributeError /\
  summary (coordinator
    (snd (_async_update_data (serving summary_body (sessions_body (PyStr "later")))
            battery)))
    = response_field summary_body "smartBatterySummary" /\
  sessions_node (coordinator
    (snd (_async_update_data (serving summary_body (sessions_body (PyStr "later")))
            battery)))
    = sessions_node (coordinator battery).
Proof.
  apply (torn_update (serving summary_body (sessions_body (PyStr "later"))) battery
           (snd (_fetch (serving summary_body (sessions_body (PyStr "later"))) battery))
           summary_body (sessions_body (PyStr "later"))).
  - vm_compute. reflexivity.
  - eexists. split; [reflexivity | exact I].
  - eexists. split; [reflexivity | exact I].
  - reflexivity.
  - reflexivity.
Defined.

(** X17. Whatever a poll that returns leaves in [sessions_node] is either
    [None] or an object with two members and no more,
    [periodTradingResult] and [sessions]: the other fields of the node are
    dropped, and [sessions] is never null (it is truthy, or the empty
    list). *)
Theorem stored_window_shape (net : Network) (h h' : Hass) (data : pyval) :
  _async_update_data net h = (Ok data, h') ->
  sessions_node (coordinator h') = PyNone \/
  exists p s,
    sessions_node (coordinator h')
      = PyDict [("periodTradingResult", p); ("sessions", s)] /\
    (truthy s = true \/ s = PyList []).
Proof.
  unfold _async_update_data, bind.
  destruct (_fetch net h) as [[[summ sess] | e] h1]; [| discriminate].
  unfold lift, modify, log, gets, ret. cbn [fst snd].
  destruct (nested_field summ "smartBatterySummary") as [s |]; [| discriminate].
  destruct (nested_field sess "smartBatterySessions") as [node |]; [| discriminate].
  destruct (negb (truthy node)).
  - intros E. inversion E; subst. now left.
  - destruct (is_dict node).
    + unfold rbind. destruct (py_get node "sessions") as [x |]; [| discriminate].
      destruct (py_get node "periodTradingResult") as [p |]; [| discriminate].
      intros E. inversion E; subst. right. exists p, (py_or x (PyList [])).
      split; [reflexivity |]. unfold py_or.
      destruct (truthy x) eqn:T; [now left | now right].
    + destruct (py_get node "periodTradingResult") as [p |]; [| discriminate].
      intros E. inversion E; subst. right. exists p, (PyList []).
      split; [reflexivity | now right].
Qed.

Lemma stored_window_shape_witness :
  sessions_node (coordinator
    (snd (_async_update_data (serving summary_body (two_sessions_body (PyInt 42)))
            battery))) = PyNone \/
  exists p s,
    sessions_node (coordinator
      (snd (_async_update_data (serving summary_body (two_sessions_body (PyInt 42)))
              battery)))
      = PyDict [("periodTradingResult", p); ("sessions", s)] /\
    (truthy s = true \/ s = PyList []).
Proof.
  apply (stored_window_shape (serving summary_body (two_sessions_body (PyInt 42)))
           battery _
           (PyDict [("summary", summary_body);
                    ("sessions", two_sessions_body (PyInt 42))])).
  vm_compute. reflexivity.
Defined.

(** X18. A [smartBatterySessions] node that is there but empty (an empty
    object, an empty list, zero, the empty string) is taken for no data, like
    a node that is missing: the poll returns, [sessions_node] becomes [None]
    and the warning is logged. *)
Theorem empty_node_is_no_data (net : Network) (h h1 : Hass) (summ sess : pyval) :
  _fetch net h = (Ok (summ, sess), h1) ->
  graphql_response summ -> graphql_response sess ->
  truthy (response_field sess "smartBatterySessions") = false ->
  fst (_async_update_data net h)
    = Ok (PyDict [("summary", summ); ("sessions", sess)]) /\
  sessions_node (coordinator (snd (_async_update_data net h))) = PyNone /\
  logged (world (snd (_async_update_data net h)))
    = (logged (world h1) ++ [no_sessions_warning (device_id (coordinator h))])%list.
Proof.
  intros Hf Hs Hg Ht.
  rewrite (update_is_digest net h h1 summ sess Hf).
  rewrite <- (fetched_coordinator net h h1 _ Hf).
  unfold digest, bind, lift.
  rewrite (nested_field_graphql summ _ Hs), (nested_field_graphql sess _ Hg), Ht.
  cbn. repeat split.
Qed.

Lemma empty_node_is_no_data_witness :
  sessions_node (coordinator
    (snd (_async_update_data (serving summary_body (sessions_body (PyDict []))) battery)))
    = PyNone.
Proof.
  apply (empty_node_is_no_data (serving summary_body (sessions_body (PyDict []))) battery
           (snd (_fetch (serving summary_body (sessions_body (PyDict []))) battery))
           summary_body (sessions_body (PyDict []))).
  - vm_compute. reflexivity.
  - eexists. split; [reflexivity | exact I].
  - eexists. split; [reflexivity | exact I].
  - reflexivity.
Defined.

Lemma digest_stores_window (summ sess : pyval) (h1 : Hass) item nd ss :
  graphql_response summ -> graphql_response sess ->
  response_field sess "smartBatterySessions" = PyDict (item :: nd) ->
  lists_sessions (item :: nd) ss ->
  fst (digest summ sess h1) = Ok (PyDict [("summary", summ); ("sessions", sess)]) /\
  sessions_node (coordinator (snd (digest summ sess h1)))
    = cached (mkWindow (member (item :: nd) "periodTradingResult") ss).
Proof.
  intros Hs Hg Hnode Hss.
  unfold digest, bind, lift, modify, log, gets, ret.
  rewrite (nested_field_graphql summ _ Hs), (nested_field_graphql sess _ Hg), Hnode.
  set (d := item :: nd) in *.
  change (truthy (PyDict d)) with true. cbv iota.
  unfold is_dict, py_get, py_get_default, rbind, cached, member.
  destruct Hss as [E | E | ss E]; rewrite E; cbn; try (now split).
  now destruct ss.
Qed.

Lemma state_of_cached (dev summ : pyval) (sw : SessionWindow) :
  trading_result_state (mkCoordinator dev summ (cached sw))
    = Ok (current_trading_result sw).
Proof.
  destruct sw as [p ss].
  unfold trading_result_state, current_trading_result, cached. cbn.
  destruct p; cbn; try reflexivity.
  destruct ss as [| s rest]; cbn; [reflexivity |].
  now rewrite last_map_dict.
Qed.

(** X19. Poll, then read the sensor: from a sessions response whose node is
    an object that lists session objects (or has no [sessions] member, or a
    null one), the poll returns and the trading result sensor then shows the
    current trading result of that node, with no session where none is
    listed. *)
Theorem poll_then_trading_state (net : Network) (h h1 : Hass) (summ sess : pyval)
    item nd ss :
  _fetch net h = (Ok (summ, sess), h1) ->
  graphql_response summ -> graphql_response sess ->
  response_field sess "smartBatterySessions" = PyDict (item :: nd) ->
  lists_sessions (item :: nd) ss ->
  fst (_async_update_data net h)
    = Ok (PyDict [("summary", summ); ("sessions", sess)]) /\
  trading_result_state (coordinator (snd (_async_update_data net h)))
    = Ok (current_trading_result
            (mkWindow (member (item :: nd) "periodTradingResult") ss)).
Proof.
  intros Hf Hs Hg Hnode Hss.
  rewrite (update_is_digest net h h1 summ sess Hf).
  destruct (digest_stores_window summ sess h1 item nd ss Hs Hg Hnode Hss) as (H1 & H2).
  split; [exact H1 |].
  destruct (coordinator (snd (digest summ sess h1))) as [dev sm sn].
  cbn in H2. subst sn. apply state_of_cached.
Qed.

Lemma poll_then_trading_state_witness :
  trading_result_state (coordinator
    (snd (_async_update_data
            (serving summary_body
               (sessions_body (PyDict [("periodTradingResult", PyNone)]))) battery)))
    = Ok PyNone.
Proof.
  apply (poll_then_trading_state
           (serving summary_body
              (sessions_body (PyDict [("periodTradingResult", PyNone)]))) battery
           (snd (_fetch (serving summary_body
                           (sessions_body (PyDict [("periodTradingResult", PyNone)])))
                   battery))
           summary_body (sessions_body (PyDict [("periodTradingResult", PyNone)]))
           ("periodTradingResult", PyNone) [] []).
  - vm_compute. reflexivity.
  - eexists. split; [reflexivity | exact I].
  - eexists. split; [reflexivity | exact I].
  - reflexivity.
  - apply sessions_absent. reflexivity.
Defined.

Lemma length_map_dict (ss : list (list (string * pyval))) :
  List.length (map PyDict ss) = List.length ss.
Proof. apply length_map. Qed.

(** X20. The attributes of the trading result sensor, on a stored window:
    [sessions_count] is the number of sessions, and [last_session_result]
    and [last_session_status] are the [result] and the [status] of the last
    session, [None] when there is no session. With no window stored the
    count is 0 and both are [None]. *)
Theorem trading_attributes_of_window :
  (forall (dev summ : pyval) (sw : SessionWindow),
     trading_attributes (mkCoordinator dev summ (cached sw))
       = Ok (PyDict [("sessions_count", PyInt (Z.of_nat (List.length (sessions sw))));
                     ("last_session_result", last_field (sessions sw) "result");
                     ("last_session_status", last_field (sessions sw) "status")])) /\
  (forall (dev summ : pyval),
     trading_attributes (mkCoordinator dev summ PyNone)
       = Ok (PyDict [("sessions_count", PyInt 0);
                     ("last_session_result", PyNone);
                     ("last_session_status", PyNone)])).
Proof.
  split; [| reflexivity].
  intros dev summ [p ss].
  unfold trading_attributes, cached, last_session_field, last_field, member. cbn.
  destruct ss as [| s rest]; [reflexivity |].
  cbn. rewrite last_map_dict, length_map_dict. cbn. reflexivity.
Qed.

Lemma summary_after_poll (net : Network) (h h1 : Hass) (summ sess : pyval) :
  _fetch net h = (Ok (summ, sess), h1) ->
  graphql_response summ ->
  summary (coordinator (snd (_async_update_data net h)))
    = response_field summ "smartBatterySummary".
Proof.
  intros Hf Hs. rewrite (update_is_digest net h h1 summ sess Hf).
  apply digest_summary. now apply nested_field_graphql.
Qed.

(** X21. Poll, then read the summary sensor. When the [smartBatterySummary]
    node is an object, the state is its [lastKnownStatus] and the attributes
    are its state of charge, last update and total result, [None] for a
    member the node lacks. When the node is missing or empty, the state and
    the three attributes are [None]. When the node is anything else (a
    string, a number, a list), the poll stores it all the same and both reads
    of the sensor end in an [AttributeError]. *)
Theorem poll_then_summary_sensor (net : Network) (h h1 : Hass) (summ sess : pyval) :
  _fetch net h = (Ok (summ, sess), h1) ->
  graphql_response summ ->
  let node := response_field summ "smartBatterySummary" in
  let c := coordinator (snd (_async_update_data net h)) in
  (forall nd, node = PyDict nd ->
     summary_state c = Ok (member nd "lastKnownStatus") /\
     summary_attributes c
       = Ok (PyDict [("soc", member nd "lastKnownStateOfCharge");
                     ("last_update", member nd "lastUpdate");
                     ("total_result", member nd "totalResult")])) /\
  (truthy node = false ->
     summary_state c = Ok PyNone /\
     summary_attributes c
       = Ok (PyDict [("soc", PyNone); ("last_update", PyNone); ("total_result", PyNone)])) /\
  (truthy node = true -> is_dict node = false ->
     summary_state c = Raise AttributeError /\
     summary_attributes c = Raise AttributeError).
Proof.
  intros Hf Hs node c.
  assert (Hc : summary c = node) by now apply (summary_after_poll net h h1 summ sess).
  unfold summary_state, summary_attributes. rewrite Hc. clearbody node. clear Hc.
  split; [| split].
  - intros nd ->. unfold member. destruct nd; split; reflexivity.
  - intros Ht. unfold py_or. rewrite Ht. split; reflexivity.
  - intros Ht Hd. unfold py_or. rewrite Ht.
    destruct node; try discriminate Hd; split; reflexivity.
Qed.

Lemma poll_then_summary_sensor_witness :
  summary_state (coordinator
    (snd (_async_update_data (serving summary_body empty_data_body) battery)))
    = Ok (PyStr "CHARGING").
Proof.
  pose proof (poll_then_summary_sensor (serving summary_body empty_data_body) battery
                (snd (_fetch (serving summary_body empty_data_body) battery))
                summary_body empty_data_body) as H.
  assert (Hf : _fetch (serving summary_body empty_data_body) battery
               = (Ok (summary_body, empty_data_body),
                  snd (_fetch (serving summary_body empty_data_body) battery))).
  { vm_compute. reflexivity. }
  assert (Hs : graphql_response summary_body).
  { eexists. split; [reflexivity | exact I]. }
  exact (proj1 (proj1 (H Hf Hs) _ eq_refl)).
Defined.

(** * Discovery of the devices *)

Lemma ids_of_objects (bs : list (list (string * pyval))) :
  Forall (fun b => dict_has b "id" = true) bs ->
  ids_of (map PyDict bs) = Ok (map (fun b => member b "id") bs).
Proof.
  induction 1 as [| b bs Hb _ IH]; [reflexivity |].
  cbn. unfold dict_has in Hb. unfold member at 1.
  destruct (dict_get b "id"); [| discriminate Hb].
  cbn. now rewrite IH.
Qed.

Lemma batteries_member (resp : pyval) (v : pyval) :
  is_dict resp = true ->
  response_field resp "smartBatteries" = v -> v <> PyNone ->
  rbind (py_get resp "data") (fun d =>
    py_get_default (py_or d (PyDict [])) "smartBatteries" (PyList [])) = Ok v.
Proof.
  intros Hd Hv Hn. destruct resp; try discriminate Hd.
  unfold response_field in Hv. unfold py_get, py_get_default, rbind.
  destruct (dict_get kv "data") as [d |]; [| now subst].
  destruct d; try (now subst).
  destruct (dict_get kv0 "smartBatteries") as [x |] eqn:E; [| now subst].
  subst. destruct kv0 as [| item0 rest0]; [discriminate E |].
  set (d := item0 :: rest0) in *.
  change (py_or (PyDict d) (PyDict [])) with (PyDict d). cbv iota.
  now rewrite E.
Qed.

(** X22. From a response that lists battery objects, each with an [id], the
    setup takes the identifiers in the order of the list, one per battery;
    it goes on to the devices exactly when the list is not empty, and else
    stops on the warning that there is no battery. *)
Theorem device_ids_listed (resp : pyval) (bs : list (list (string * pyval))) :
  is_dict resp = true ->
  response_field resp "smartBatteries" = PyList (map PyDict bs) ->
  Forall (fun b => dict_has b "id" = true) bs ->
  device_ids_of resp = Ok (map (fun b => member b "id") bs) /\
  discover resp = match bs with
                  | [] => NoBatteries
                  | _ => Devices (map (fun b => member b "id") bs)
                  end.
Proof.
  intros Hd Hv Hall.
  assert (E : device_ids_of resp = Ok (map (fun b => member b "id") bs)).
  { unfold device_ids_of.
    pose proof (batteries_member resp _ Hd Hv) as Hm.
    unfold rbind in Hm |- *.
    destruct (py_get resp "data") as [d |]; [| now discriminate Hm].
    rewrite Hm by discriminate. cbn. now apply ids_of_objects. }
  split; [exact E |].
  unfold discover. rewrite E. now destruct bs.
Qed.

Lemma device_ids_listed_witness :
  discover (batteries_body [PyDict [("id", PyStr "a")]; PyDict [("id", PyStr "b")]])
    = Devices [PyStr "a"; PyStr "b"].
Proof.
  assert (Hall : Forall (fun b => dict_has b "id" = true)
                   [[("id", PyStr "a")]; [("id", PyStr "b")]]).
  { repeat constructor. }
  exact (proj2 (device_ids_listed
                  (batteries_body [PyDict [("id", PyStr "a")]; PyDict [("id", PyStr "b")]])
                  [[("id", PyStr "a")]; [("id", PyStr "b")]] eq_refl eq_refl Hall)).
Defined.

(** X23. Discovery without a list of batteries. A response that lacks the
    [smartBatteries] member (or whose [data] is absent or null) gives no
    identifier: the setup stops on the warning. A [smartBatteries] that is
    null is another matter: iterating over it raises a [TypeError], which the
    setup catches and logs as an error. A response that is not an object
    ends the same way, on an [AttributeError]. *)
Theorem discovery_without_list (resp : pyval) :
  (lacks_field resp "smartBatteries" -> discover resp = NoBatteries) /\
  (forall kv item d,
     resp = PyDict kv -> dict_get kv "data" = Some (PyDict (item :: d)) ->
     dict_get (item :: d) "smartBatteries" = Some PyNone ->
     discover resp = ParseFailed TypeError) /\
  (is_dict resp = false -> discover resp = ParseFailed AttributeError).
Proof.
  split; [| split].
  - intros (kv & -> & H).
    unfold discover, device_ids_of, py_get, py_get_default, rbind.
    destruct (dict_get kv "data") as [d |]; [| reflexivity].
    destruct d; try contradiction; try reflexivity.
    destruct kv0 as [| item0 rest0]; [reflexivity |].
    set (d := item0 :: rest0) in *.
    change (py_or (PyDict d) (PyDict [])) with (PyDict d). cbv iota.
    now rewrite H.
  - intros kv item d -> Hd Hb.
    unfold discover, device_ids_of, py_get, py_get_default, rbind.
    rewrite Hd. set (dd := item :: d) in *.
    change (py_or (PyDict dd) (PyDict [])) with (PyDict dd). cbv iota.
    now rewrite Hb.
  - intros Hd. unfold discover, device_ids_of.
    destruct resp; try reflexivity. discriminate Hd.
Qed.

Lemma discovery_without_list_witness :
  discover empty_data_body = NoBatteries /\
  discover (PyDict [("data", PyDict [("smartBatteries", PyNone)])])
    = ParseFailed TypeError /\
  discover (PyList []) = ParseFailed AttributeError.
Proof.
  pose proof (discovery_without_list empty_data_body) as (H1 & _ & _).
  pose proof (discovery_without_list
                (PyDict [("data", PyDict [("smartBatteries", PyNone)])]))
    as (_ & H2 & _).
  pose proof (discovery_without_list (PyList [])) as (_ & _ & H3).
  split; [| split].
  - apply H1. eexists. split; [reflexivity | reflexivity].
  - exact (H2 _ _ _ eq_refl eq_refl eq_refl).
  - exact (H3 eq_refl).
Defined.

Lemma ids_of_broken (bs : list (list (string * pyval))) (b : pyval) rest e :
  Forall (fun b => dict_has b "id" = true) bs ->
  py_item b "id" = Raise e ->
  ids_of (map PyDict bs ++ b :: rest)%list = Raise e.
Proof.
  intros Hall Hb. induction Hall as [| x bs Hx _ IH].
  - cbn. now rewrite Hb.
  - cbn. unfold dict_has in Hx.
    destruct (dict_get x "id"); [| discriminate Hx].
    cbn. now rewrite IH.
Qed.

(** X24. One bad entry spoils the discovery: when a battery of the list has
    no [id], or an entry of the list is not an object, the setup catches the
    exception ([KeyError], [TypeError]) and stops with an error, also when
    the other batteries are well formed; no device is set up. *)
Theorem one_bad_battery_stops_setup (resp : pyval)
    (bs : list (list (string * pyval))) (b : pyval) (rest : list pyval) (e : exn) :
  is_dict resp = true ->
  response_field resp "smartBatteries" = PyList (map PyDict bs ++ b :: rest) ->
  Forall (fun b => dict_has b "id" = true) bs ->
  py_item b "id" = Raise e ->
  discover resp = ParseFailed e.
Proof.
  intros Hd Hv Hall Hb.
  unfold discover, device_ids_of.
  pose proof (batteries_member resp _ Hd Hv) as Hm.
  unfold rbind in Hm |- *.
  destruct (py_get resp "data") as [d |]; [| now discriminate Hm].
  rewrite Hm by discriminate. cbn [py_iter].
  now rewrite (ids_of_broken bs b rest e Hall Hb).
Qed.

Lemma one_bad_battery_stops_setup_witness :
  discover (batteries_body [PyDict [("id", PyStr "a")]; PyDict [("name", PyStr "b")]])
    = ParseFailed KeyError /\
  discover (batteries_body [PyDict [("id", PyStr "a")]; PyNone])
    = ParseFailed TypeError.
Proof.
  assert (Hall : Forall (fun b => dict_has b "id" = true) [[("id", PyStr "a")]]).
  { repeat constructor. }
  split.
  - exact (one_bad_battery_stops_setup
             (batteries_body [PyDict [("id", PyStr "a")]; PyDict [("name", PyStr "b")]])
             [[("id", PyStr "a")]] (PyDict [("name", PyStr "b")]) [] KeyError
             eq_refl eq_refl Hall eq_refl).
  - exact (one_bad_battery_stops_setup
             (batteries_body [PyDict [("id", PyStr "a")]; PyNone])
             [[("id", PyStr "a")]] PyNone [] TypeError
             eq_refl eq_refl Hall eq_refl).
Defined.

(** * Names of the entities *)

Lemma append_cancel_l (p x y : string) : p ++ x = p ++ y -> x = y.
Proof.
  induction p as [| c p IH]; cbn; intros H; [exact H |].
  inversion H. now apply IH.
Qed.

Lemma length_append (x y : string) :
  String.length (x ++ y) = (String.length x + String.length y)%nat.
Proof.
  induction x as [| c x IH]; cbn; [reflexivity | now rewrite IH].
Qed.

Lemma append_cancel_r (s x y : string) : x ++ s = y ++ s -> x = y.
Proof.
  revert y. induction x as [| c x IH]; intros [| c' y] H; cbn in H.
  - reflexivity.
  - apply (f_equal String.length) in H. cbn in H. rewrite length_append in H. lia.
  - apply (f_equal String.length) in H. cbn in H. rewrite length_append in H. lia.
  - inversion H. f_equal. now apply IH.
Qed.

Lemma last_char_append (x : string) (c : ascii) (s : string) :
  last_char (x ++ String c s) = last_char (String c s).
Proof.
  induction x as [| a x IH]; [reflexivity |].
  change (String a x ++ String c s) with (String a (x ++ String c s)).
  rewrite <- IH. cbn [last_char].
  destruct (x ++ String c s) eqn:E; [| reflexivity].
  destruct x; discriminate E.
Qed.

(** X25. The unique identifiers of the entities tell them apart: two summary
    sensors, or two trading result sensors, have the same identifier only
    for the same device, and a summary sensor never shares its identifier
    with a trading result sensor, of whatever device. *)
Theorem unique_ids_distinct (d1 d2 : string) :
  (summary_sensor_unique_id d1 = summary_sensor_unique_id d2 -> d1 = d2) /\
  (trading_sensor_unique_id d1 = trading_sensor_unique_id d2 -> d1 = d2) /\
  summary_sensor_unique_id d1 <> trading_sensor_unique_id d2.
Proof.
  unfold summary_sensor_unique_id, trading_sensor_unique_id.
  split; [| split].
  - intros H. apply append_cancel_l in H. apply append_cancel_l in H.
    now apply append_cancel_r in H.
  - intros H. apply append_cancel_l in H. apply append_cancel_l in H.
    now apply append_cancel_r in H.
  - intros H. apply append_cancel_l in H. apply append_cancel_l in H.
    apply (f_equal last_char) in H.
    rewrite (last_char_append d1), (last_char_append d2) in H. discriminate H.
Qed.

Lemma unique_ids_distinct_witness :
  summary_sensor_unique_id "dev-1" = "frank_energie_slim_dev-1_status" /\
  trading_sensor_unique_id "dev-1" = "frank_energie_slim_dev-1_trading_result" /\
  "dev-1" = "dev-1" /\
  summary_sensor_unique_id "dev-1" <> trading_sensor_unique_id "dev-1".
Proof.
  split; [reflexivity |]. split; [reflexivity |].
  pose proof (unique_ids_distinct "dev-1" "dev-1") as (U1 & _ & U3).
  split; [exact (U1 eq_refl) | exact U3].
Defined.

(** * Dates on the wire, again *)

Lemma decimal_digits_short (fuel : nat) (n : Z) :
  0 <= n < 1000 -> (String.length (decimal_digits fuel n) <= 3)%nat.
Proof.
  intros H.
  destruct fuel as [| [| [| fuel]]]; cbn [decimal_digits];
    repeat match goal with
           | |- context [if ?c then _ else _] => destruct c eqn:?
           end;
    rewrite ?length_append; cbn [String.length String.append]; try lia.
  exfalso.
  repeat match goal with E : (_ <? _) = false |- _ => apply Z.ltb_ge in E end.
  Z.div_mod_to_equations. lia.
Qed.

Lemma strftime_length (d : datetime) :
  String.length (strftime_Ymd d) = (String.length (decimal (year d)) + 6)%nat.
Proof.
  unfold strftime_Ymd. rewrite length_append. reflexivity.
Qed.

Lemma strftime_ten (d : datetime) :
  valid_date d ->
  String.length (strftime_Ymd d) = 10%nat <-> 1000 <= year d.
Proof.
  intros (Hy & _). rewrite strftime_length. split.
  - intros Hl. destruct (Z.lt_ge_cases (year d) 1000) as [Hlt | Hge]; [| exact Hge].
    pose proof (decimal_digits_short (S (Z.to_nat (Z.log2 (year d)))) (year d)) as Hs.
    fold (decimal (year d)) in Hs. lia.
  - intros Hge. rewrite decimal_four by lia. reflexivity.
Qed.


